(** * istio-gorm-tracing: the span-correlation hooks of the gorm plugin

    A shallow embedding of [istio-gorm-tracing.go].  The plugin's own
    functions ([_injectBefore], [after], the six [beforeXxx] wrappers,
    [bootTracerBasedJaeger], [NewDefault]) are transcribed statement by
    statement.  The library calls they make (Go's [strconv], the B3
    propagator of jaeger-client-go/zipkin, opentracing-go, the Jaeger
    tracer and gorm's instance store) are modelled in modules named after
    the Go packages, as far as the hooks observe them. *)

From Stdlib Require Import ZArith String Ascii HexString.
From stdpp Require Import gmap strings list fin_maps.

Local Open Scope string_scope.
Local Open Scope list_scope.
Local Open Scope Z_scope.

(** Go's [error] values are compared by the hooks only against [nil];
    an error is its message, [None] is [nil]. *)
Definition error := string.

(* ===================================================================== *)
(** ** Package strconv: [ParseUint(s, 16, 64)] *)
(* ===================================================================== *)
Module strconv.

Inductive NumError := ErrSyntax | ErrRange.

Definition maxUint64 : Z := 2 ^ 64 - 1.

(** [cutoff] is the first [n] for which [n * 16] overflows 64 bits. *)
Definition cutoff : Z := maxUint64 / 16 + 1.

(** [lower(c) = c | ('x' - 'X')]. *)
Definition lower (c : Z) : Z := Z.lor c 32.

Definition byte_of (c : ascii) : Z := Z.of_N (N_of_ascii c).

(** The digit switch of the parsing loop, on one byte. *)
Definition digit (c : ascii) : option Z :=
  let b := byte_of c in
  if (48 <=? b) && (b <=? 57) then Some (b - 48)
  else if (97 <=? lower b) && (lower b <=? 122) then Some (lower b - 97 + 10)
  else None.

(** The loop over the bytes of [s] with accumulator [n]; the additions and
    multiplications are those of [uint64]. *)
Fixpoint parseLoop (s : string) (n : Z) : Z + NumError :=
  match s with
  | EmptyString => inl n
  | String c rest =>
      match digit c with
      | None => inr ErrSyntax
      | Some d =>
          if 16 <=? d then inr ErrSyntax
          else if cutoff <=? n then inr ErrRange
          else
            let n16 := (n * 16) mod 2 ^ 64 in
            let n1 := (n16 + d) mod 2 ^ 64 in
            if (n1 <? n16) || (maxUint64 <? n1) then inr ErrRange
            else parseLoop rest n1
      end
  end.

(** [strconv.ParseUint(s, 16, 64)]: the empty string is a syntax error. *)
Definition ParseUint16 (s : string) : Z + NumError :=
  match s with
  | EmptyString => inr ErrSyntax
  | _ => parseLoop s 0
  end.

End strconv.

(* ===================================================================== *)
(** ** Package jaeger: trace identifiers and span contexts *)
(* ===================================================================== *)
Module jaeger.

Record TraceID := mkTraceID { High : Z; Low : Z }.

Definition TraceID_IsValid (t : TraceID) : bool :=
  negb (High t =? 0) || negb (Low t =? 0).

(** The slice [s[n:]]. *)
Definition substring_from (n : nat) (s : string) : string :=
  substring n (String.length s - n) s.

(** [TraceIDFromString]: at most 32 hex characters; beyond 16 the leading
    characters are the high word. *)
Definition TraceIDFromString (s : string) : TraceID + error :=
  let len := String.length s in
  if (32 <? len)%nat then inr "TraceID cannot be longer than 32 hex characters"
  else if (16 <? len)%nat then
    let hiLen := (len - 16)%nat in
    match strconv.ParseUint16 (substring 0 hiLen s) with
    | inr _ => inr "strconv.ParseUint"
    | inl hi =>
        match strconv.ParseUint16 (substring_from hiLen s) with
        | inr _ => inr "strconv.ParseUint"
        | inl lo => inl (mkTraceID hi lo)
        end
    end
  else
    match strconv.ParseUint16 s with
    | inr _ => inr "strconv.ParseUint"
    | inl lo => inl (mkTraceID 0 lo)
    end.

(** [jaeger.SpanContext].  [sampled] and [final] are its sampling state:
    the sampled flag, and whether the sampling decision is final.  A span
    takes the sampling state of its parent when it starts; the state it
    has then is all the hooks see of it.  The debug id and the remote mark
    are left out: neither the B3 propagator nor a started span sets
    them. *)
Record SpanContext := mkSpanContext {
  traceID : TraceID;
  spanID : Z;
  parentID : Z;
  sampled : bool;
  final : bool;
  baggage : gmap string string
}.

Definition emptyContext : SpanContext :=
  mkSpanContext (mkTraceID 0 0) 0 0 false false ∅.

(** [NewSpanContext]: the sampling state holds the flag it is given and
    is not final. *)
Definition NewSpanContext (t : TraceID) (sp par : Z) (smp : bool)
    (bag : gmap string string) : SpanContext :=
  mkSpanContext t sp par smp false bag.

(** [SpanContext.IsValid]: a valid trace id and a non-zero span id. *)
Definition IsValid (c : SpanContext) : bool :=
  TraceID_IsValid (traceID c) && negb (spanID c =? 0).

(** [fmt.Sprintf("%016x", n)] for a 64-bit number. *)
Definition hexDigit (n : Z) : ascii :=
  if n <? 10 then ascii_of_nat (Z.to_nat n + 48) else ascii_of_nat (Z.to_nat n + 87).

Fixpoint hexDigits (width : nat) (n : Z) (rest : string) : string :=
  match width with
  | O => rest
  | S width' => hexDigits width' (Z.shiftr n 4) (String (hexDigit (Z.land n 15)) rest)
  end.

Definition hex16 (n : Z) : string := hexDigits 16 n EmptyString.

(** [SpanContext.String]: trace id, span id, parent id and the flags. *)
Definition SpanContext_String (c : SpanContext) : string :=
  (if High (traceID c) =? 0 then hex16 (Low (traceID c))
   else hex16 (High (traceID c)) +:+ hex16 (Low (traceID c)))
  +:+ ":" +:+ hex16 (spanID c) +:+ ":" +:+ hex16 (parentID c)
  +:+ ":" +:+ (if sampled c then "1" else "0").

End jaeger.

(* ===================================================================== *)
(** ** Package net/http and the opentracing carrier *)
(* ===================================================================== *)

(** [http.Header] is [map[string][]string].  A Go map is ranged over in an
    unspecified order; a header is the list of its entries in the order one
    iteration visits them, so a statement for every list covers every order.
    The [nil] header ranges over nothing, like the empty list. *)
Definition Header := list (string * list string).

Module opentracing.

Definition ErrSpanContextNotFound : error :=
  "opentracing: SpanContext not found in Extract carrier".

(** [HTTPHeadersCarrier.ForeachKey]: the handler sees every value of every
    key; the first error stops the iteration.  The handler threads its
    captured variables as the state [S]. *)
Section ForeachKey.
Context {S : Type} (handler : string -> string -> S -> S + error).

Fixpoint foreachVal (k : string) (vals : list string) (st : S) : S + error :=
  match vals with
  | [] => inl st
  | v :: vals' =>
      match handler k v st with
      | inr e => inr e
      | inl st' => foreachVal k vals' st'
      end
  end.

Fixpoint ForeachKey (c : Header) (st : S) : S + error :=
  match c with
  | [] => inl st
  | (k, vals) :: c' =>
      match foreachVal k vals st with
      | inr e => inr e
      | inl st' => ForeachKey c' st'
      end
  end.
End ForeachKey.

End opentracing.

(* ===================================================================== *)
(** ** Package zipkin: the B3 HTTP header propagator *)
(* ===================================================================== *)
Module zipkin.

(** [strings.ToLower] on header names, which are ASCII tokens. *)
Definition lowerAscii (c : ascii) : ascii :=
  let n := N_of_ascii c in
  if ((65 <=? n) && (n <=? 90))%N then ascii_of_N (n + 32) else c.

Fixpoint ToLower (s : string) : string :=
  match s with
  | EmptyString => EmptyString
  | String c r => String (lowerAscii c) (ToLower r)
  end.

Definition baggagePrefix : string := "baggage-".

(** The variables the [Extract] closure assigns. *)
Record ExtractState := mkExtractState {
  e_traceID : jaeger.TraceID;
  e_spanID : Z;
  e_parentID : Z;
  e_sampled : bool;
  e_baggage : gmap string string
}.

Definition extractInit : ExtractState :=
  mkExtractState (jaeger.mkTraceID 0 0) 0 0 false ∅.

Definition parseID (value : string) : Z + error :=
  match strconv.ParseUint16 value with
  | inl n => inl n
  | inr _ => inr "strconv.ParseUint"
  end.

(** The closure passed to [ForeachKey]. *)
Definition extractHandler (rawKey value : string) (st : ExtractState)
    : ExtractState + error :=
  let key := ToLower rawKey in
  if String.eqb key "x-b3-traceid" then
    match jaeger.TraceIDFromString value with
    | inl t => inl (mkExtractState t (e_spanID st) (e_parentID st) (e_sampled st) (e_baggage st))
    | inr e => inr e
    end
  else if String.eqb key "x-b3-parentspanid" then
    match parseID value with
    | inl n => inl (mkExtractState (e_traceID st) (e_spanID st) n (e_sampled st) (e_baggage st))
    | inr e => inr e
    end
  else if String.eqb key "x-b3-spanid" then
    match parseID value with
    | inl n => inl (mkExtractState (e_traceID st) n (e_parentID st) (e_sampled st) (e_baggage st))
    | inr e => inr e
    end
  else if String.eqb key "x-b3-sampled"
          && (String.eqb value "1" || String.eqb value "true") then
    inl (mkExtractState (e_traceID st) (e_spanID st) (e_parentID st) true (e_baggage st))
  else if String.prefix baggagePrefix key then
    inl (mkExtractState (e_traceID st) (e_spanID st) (e_parentID st) (e_sampled st)
           (<[jaeger.substring_from (String.length baggagePrefix) key := value]> (e_baggage st)))
  else inl st.

(** [Propagator.Extract]: the span context and the error, as Go returns
    them; on an error the context is the empty one. *)
Definition Extract (carrier : Header) : jaeger.SpanContext * option error :=
  match opentracing.ForeachKey extractHandler carrier extractInit with
  | inr e => (jaeger.emptyContext, Some e)
  | inl st =>
      if negb (jaeger.TraceID_IsValid (e_traceID st))
      then (jaeger.emptyContext, Some opentracing.ErrSpanContextNotFound)
      else (jaeger.NewSpanContext (e_traceID st) (e_spanID st) (e_parentID st)
              (e_sampled st) (e_baggage st), None)
  end.

End zipkin.


(* ===================================================================== *)
(** ** Spans, the tracer state and the process state *)
(* ===================================================================== *)

(** A span is a Go pointer ([*jaeger.Span]); [SpanRef] is its address in
    the heap of spans of the process. *)
Definition SpanRef := positive.

Inductive RefType := ChildOfRef | FollowsFromRef.

Record Reference := mkReference {
  refType : RefType;
  refContext : jaeger.SpanContext
}.

(** [opentracinglog.Field]: [String(k, v)] and [Error(err)]. *)
Inductive FieldValue := StringVal (s : string) | ErrorVal (e : error).

Record Field := mkField { key : string; value : FieldValue }.

Definition log_String (k v : string) : Field := mkField k (StringVal v).
Definition log_Error (e : error) : Field := mkField "error.object" (ErrorVal e).

Record LogRecord := mkLogRecord {
  Timestamp : Z;
  Fields : list Field
}.

Record Span := mkSpan {
  context : jaeger.SpanContext;
  operationName : string;
  startTime : Z;
  duration : Z;
  references : list Reference;
  logs : list LogRecord
}.

(** [opentracing.GlobalTracer()]: the no-op tracer until
    [SetGlobalTracer] installs the Jaeger tracer. *)
Inductive Tracer :=
| NoopTracer
| JaegerTracer (serviceName collectorEndpoint : string).

(** The state of the process the hooks run in. *)
Record World := mkWorld {
  H : Header;                      (* var H http.Header *)
  globalTracer : Tracer;           (* opentracing's global tracer *)
  rng : N -> positive;             (* the tracer's identifier generator *)
  drawn : N;                       (* identifiers drawn so far *)
  clock : Z;                       (* what time.Now() reads *)
  spans : gmap SpanRef Span;       (* the spans allocated so far *)
  finishCalls : list SpanRef;      (* the calls of Finish, oldest first *)
  reported : list SpanRef;         (* spans handed to the reporter, oldest first *)
  dbLog : list string;             (* messages given to db.Logger.Error *)
  stdLog : list string             (* lines written by the log package *)
}.

Definition set_H (h : Header) (w : World) : World :=
  mkWorld h (globalTracer w) (rng w) (drawn w) (clock w)
    (spans w) (finishCalls w) (reported w) (dbLog w) (stdLog w).

Definition set_globalTracer (t : Tracer) (w : World) : World :=
  mkWorld (H w) t (rng w) (drawn w) (clock w)
    (spans w) (finishCalls w) (reported w) (dbLog w) (stdLog w).

Definition set_drawn (n : N) (w : World) : World :=
  mkWorld (H w) (globalTracer w) (rng w) n (clock w)
    (spans w) (finishCalls w) (reported w) (dbLog w) (stdLog w).

Definition set_clock (t : Z) (w : World) : World :=
  mkWorld (H w) (globalTracer w) (rng w) (drawn w) t
    (spans w) (finishCalls w) (reported w) (dbLog w) (stdLog w).

Definition set_spans (m : gmap SpanRef Span) (w : World) : World :=
  mkWorld (H w) (globalTracer w) (rng w) (drawn w) (clock w)
    m (finishCalls w) (reported w) (dbLog w) (stdLog w).

Definition set_finishCalls (l : list SpanRef) (w : World) : World :=
  mkWorld (H w) (globalTracer w) (rng w) (drawn w) (clock w)
    (spans w) l (reported w) (dbLog w) (stdLog w).

Definition set_reported (l : list SpanRef) (w : World) : World :=
  mkWorld (H w) (globalTracer w) (rng w) (drawn w) (clock w)
    (spans w) (finishCalls w) l (dbLog w) (stdLog w).

Definition set_dbLog (l : list string) (w : World) : World :=
  mkWorld (H w) (globalTracer w) (rng w) (drawn w) (clock w)
    (spans w) (finishCalls w) (reported w) l (stdLog w).

Definition set_stdLog (l : list string) (w : World) : World :=
  mkWorld (H w) (globalTracer w) (rng w) (drawn w) (clock w)
    (spans w) (finishCalls w) (reported w) (dbLog w) l.

(* ===================================================================== *)
(** ** Go control flow: a state monad with panic and process exit *)
(* ===================================================================== *)

Inductive outcome (A : Type) : Type :=
| Done (a : A) (w : World)          (* the call returned *)
| Panic (msg : string) (w : World)  (* a run-time panic unwinds the call *)
| Exit (code : Z) (w : World).      (* os.Exit ended the process *)

Arguments Done {A} a w.
Arguments Panic {A} msg w.
Arguments Exit {A} code w.

Definition M (A : Type) : Type := World -> outcome A.

Definition ret {A} (a : A) : M A := fun w => Done a w.

Definition bind {A B} (m : M A) (f : A -> M B) : M B :=
  fun w =>
    match m w with
    | Done a w' => f a w'
    | Panic msg w' => Panic msg w'
    | Exit c w' => Exit c w'
    end.

Declare Scope go_scope.
Delimit Scope go_scope with go.
Notation "x <- m ;; k" := (bind m (fun x => k))
  (at level 100, m at next level, right associativity) : go_scope.
Notation "m ;;; k" := (bind m (fun _ => k))
  (at level 100, right associativity) : go_scope.
Local Open Scope go_scope.

Definition get : M World := fun w => Done w w.
Definition modify (f : World -> World) : M unit := fun w => Done tt (f w).
Definition panic {A} (msg : string) : M A := fun w => Panic msg w.
Definition os_Exit {A} (code : Z) : M A := fun w => Exit code w.

Definition nilDeref : string :=
  "runtime error: invalid memory address or nil pointer dereference".

(** Reading through a pointer or calling through an interface: [nil]
    panics. *)
Definition deref {A} (p : option A) : M A :=
  match p with
  | Some a => ret a
  | None => panic nilDeref
  end.

(** [defer f()] in front of [body]: [f] runs when [body] returns and also
    when it panics (the panic goes on afterwards); not after [os.Exit]. *)
Definition defer {A} (f : M unit) (body : M A) : M A :=
  fun w =>
    match body w with
    | Done a w' =>
        match f w' with
        | Done _ w'' => Done a w''
        | Panic msg w'' => Panic msg w''
        | Exit c w'' => Exit c w''
        end
    | Panic msg w' =>
        match f w' with
        | Done _ w'' => Panic msg w''
        | Panic msg' w'' => Panic msg' w''
        | Exit c w'' => Exit c w''
        end
    | Exit c w' => Exit c w'
    end.

(* ===================================================================== *)
(** ** The Jaeger tracer, as [bootTracerBasedJaeger] configures it *)
(* ===================================================================== *)
Module tracer.

(** A reference the tracer does not skip ([isEmptyReference] is false): a
    valid context, or one that carries baggage. *)
Definition isValidReference (c : jaeger.SpanContext) : bool :=
  jaeger.IsValid c || negb (Nat.eqb (size (jaeger.baggage c)) 0).

Definition isChildOf (t : RefType) : bool :=
  match t with ChildOfRef => true | FollowsFromRef => false end.

(** The loop of [startSpanWithOptions] over [options.References]: empty
    references are skipped; of the others the valid ones are kept as the
    references of the span, and the parent is the first [ChildOf] among
    them (until one is seen, the latest reference). *)
Fixpoint resolveReferences (refs acc : list Reference)
    (parent : jaeger.SpanContext) (hasParent : bool)
    : list Reference * jaeger.SpanContext * bool :=
  match refs with
  | [] => (acc, parent, hasParent)
  | r :: rest =>
      if negb (isValidReference (refContext r))
      then resolveReferences rest acc parent hasParent
      else
        let acc' := if jaeger.IsValid (refContext r) then acc ++ [r] else acc in
        if negb hasParent
        then resolveReferences rest acc' (refContext r) (isChildOf (refType r))
        else resolveReferences rest acc' parent hasParent
  end.

(** [randomID]: the generator is asked again until it gives a non-zero
    number, so an identifier is a positive number. *)
Definition randomID : M Z :=
  fun w => Done (Zpos (rng w (drawn w))) (set_drawn (drawn w + 1)%N w).

Definition timeNow : M Z := fun w => Done (clock w) w.

(** [newSpan]: a fresh [*Span]. *)
Definition allocSpan (s : Span) : M SpanRef :=
  fun w =>
    let r := fresh (dom (spans w)) in
    Done r (set_spans (<[r := s]> (spans w)) w).

(** The sampler of the configuration, the constant one with [Param: 1],
    asked when a span is created ([OnCreateSpan]) and the sampling state
    is not final yet: the span is sampled, and that is final. *)
Definition sampleOnCreate (c : jaeger.SpanContext) : jaeger.SpanContext :=
  if jaeger.final c then c
  else jaeger.mkSpanContext (jaeger.traceID c) (jaeger.spanID c) (jaeger.parentID c)
         true true (jaeger.baggage c).

(** [Tracer.StartSpan(operationName, opts...)] with the references the
    options carry.  No start time is given, so it is read from the clock;
    the trace id is 64 bits wide ([High] stays zero).  A span without a
    valid parent starts a trace with a sampling state of its own; a child
    takes the sampling state of its parent, so the child of a span that is
    finally not sampled is not sampled either. *)
Definition StartSpan (opName : string) (refs : list Reference) : M SpanRef :=
  now <- timeNow ;;
  let '(references, parent, hasParent0) :=
    resolveReferences refs [] jaeger.emptyContext false in
  let hasParent := hasParent0 || isValidReference parent in
  ctx <- (if negb hasParent || negb (jaeger.IsValid parent) then
            low <- randomID ;;
            ret (jaeger.mkSpanContext (jaeger.mkTraceID 0 low) low 0 false false
                   (if hasParent then jaeger.baggage parent else ∅))
          else
            id <- randomID ;;
            ret (jaeger.mkSpanContext (jaeger.traceID parent) id
                   (jaeger.spanID parent) (jaeger.sampled parent)
                   (jaeger.final parent) (jaeger.baggage parent))) ;;
  allocSpan (mkSpan (sampleOnCreate ctx) opName now 0 references []).

(** The span [s] with one more log record, if it is sampled. *)
Definition addRecord (rec : LogRecord) (s : Span) : Span :=
  if jaeger.sampled (context s)
  then mkSpan (context s) (operationName s) (startTime s) (duration s)
         (references s) (logs s ++ [rec])
  else s.

(** [Span.LogFields] of jaeger: nothing for a span that is not sampled,
    else one log record with the current time. *)
Definition LogFields (r : SpanRef) (fields : list Field) : M unit :=
  fun w =>
    Done tt (set_spans (alter (addRecord (mkLogRecord (clock w) fields)) r (spans w)) w).

Definition setDuration (d : Z) (s : Span) : Span :=
  mkSpan (context s) (operationName s) (startTime s) d (references s) (logs s).

(** The logging reporter ([LogSpans: true], with the logger of the log
    package) writes [Infof("Reporting span %+v", span)]; a span prints as
    its context does. *)
Definition reportingLine (s : Span) : string :=
  "Reporting span " +:+ jaeger.SpanContext_String (context s).

(** [Tracer.reportSpan]: only a sampled span goes to the reporter, which
    writes its line and takes the span. *)
Definition reportSpan (r : SpanRef) : M unit :=
  fun w =>
    match spans w !! r with
    | Some s =>
        if jaeger.sampled (context s)
        then Done tt (set_reported (reported w ++ [r])
                        (set_stdLog (stdLog w ++ [reportingLine s]) w))
        else Done tt w
    | None => Done tt w
    end.

(** [Span.Finish] of jaeger: the duration is set from the clock and the
    span is given to [reportSpan].  The constant sampler decides when a
    span is created and not when it is finished, so the sampling state
    stays as it is.  Nothing guards against a second call. *)
Definition Finish (r : SpanRef) : M unit :=
  now <- timeNow ;;
  modify (fun w =>
            set_finishCalls (finishCalls w ++ [r])
              (set_spans (alter (fun s => setDuration (now - startTime s) s) r (spans w)) w)) ;;;
  reportSpan r.

End tracer.

(* ===================================================================== *)
(** ** Package context and package opentracing: spans behind interfaces *)
(* ===================================================================== *)
Module gocontext.

(** A [context.Context], as [opentracing.SpanFromContext] reads it: the
    span context of the active span it carries, if it carries one. *)
Record Context := mkContext { activeSpan : option jaeger.SpanContext }.

Definition Background : Context := mkContext None.

End gocontext.

(** The implementations of [opentracing.Span] in the process. *)
Inductive OTSpan :=
| JaegerSpan (r : SpanRef)   (* a *jaeger.Span *)
| NilJaegerSpan              (* the nil pointer of type *jaeger.Span *)
| NoopSpan.                  (* the span of the no-op tracer *)

(** [ChildOf(sc)] as a start option: one [ChildOfRef] reference. *)
Definition ChildOf (sc : jaeger.SpanContext) : Reference :=
  mkReference ChildOfRef sc.

(** [opentracing.StartSpanFromContext(ctx, operationName, opts...)]: the
    span the context carries is appended as a further [ChildOf] option and
    the global tracer starts the span.  The context returned with the span
    is not used by the plugin. *)
Definition StartSpanFromContext (ctx : gocontext.Context) (opName : string)
    (opts : list Reference) : M OTSpan :=
  let opts' := match gocontext.activeSpan ctx with
               | Some parentCtx => opts ++ [ChildOf parentCtx]
               | None => opts
               end in
  w <- get ;;
  match globalTracer w with
  | NoopTracer => ret NoopSpan
  | JaegerTracer _ _ => r <- tracer.StartSpan opName opts' ;; ret (JaegerSpan r)
  end.

(** The methods of a span, called through the interface.  Those of
    [*jaeger.Span] read through the receiver first, so they panic on the
    nil pointer. *)
Definition Span_LogFields (sp : OTSpan) (fields : list Field) : M unit :=
  match sp with
  | JaegerSpan r => tracer.LogFields r fields
  | NilJaegerSpan => panic nilDeref
  | NoopSpan => ret tt
  end.

Definition Span_Finish (sp : OTSpan) : M unit :=
  match sp with
  | JaegerSpan r => tracer.Finish r
  | NilJaegerSpan => panic nilDeref
  | NoopSpan => ret tt
  end.

Definition SetGlobalTracer (t : Tracer) : M unit := modify (set_globalTracer t).

(* ===================================================================== *)
(** ** Package gorm: what a callback sees of [*gorm.DB] *)
(* ===================================================================== *)

(** A Go [interface{}] value in the instance store. *)
Inductive iface :=
| INil                     (* the nil interface *)
| ISpan (sp : OTSpan)      (* a value that implements opentracing.Span *)
| IOther (v : string).     (* a value of a type that does not *)

(** [_span == nil]: true of the nil interface only, not of a nil pointer
    in an interface. *)
Definition iface_is_nil (v : iface) : bool :=
  match v with INil => true | _ => false end.

(** [span, ok := _span.(opentracing.Span)]: [None] is the nil [Span].  A
    nil pointer of a span type passes the assertion and is no nil
    [Span]. *)
Definition assertSpan (v : iface) : option OTSpan * bool :=
  match v with
  | ISpan sp => (Some sp, true)
  | _ => (None, false)
  end.

Module gorm.

(** A bound parameter of a statement ([Vars []interface{}]). *)
Inductive Var := VInt (n : Z) | VString (s : string) | VBool (b : bool) | VNull.

(** The struct [gorm.Statement] (the name [Statement] is kept for the field
    of [DB]).  [ptr] is the address of the statement, which [InstanceSet]
    and [InstanceGet] print with [%p] in front of the key. *)
Record StatementT := mkStatement {
  ptr : Z;
  Context : option gocontext.Context;
  Table : string;
  SQL : string;
  Vars : list Var;
  Settings : gmap string iface
}.

(** [gorm.DB] as a callback receives it: an instance ([clone] is zero, so
    [getInstance] returns it as it is), with its dialector and logger set
    by [gorm.Open].  [Explain] is [db.Dialector.Explain]. *)
Record DB := mkDB {
  Error : option error;
  RowsAffected : Z;
  Statement : option StatementT;
  Explain : string -> list Var -> string
}.

Definition set_Settings (m : gmap string iface) (s : StatementT) : StatementT :=
  mkStatement (ptr s) (Context s) (Table s) (SQL s) (Vars s) m.

Definition set_Statement (s : option StatementT) (d : DB) : DB :=
  mkDB (Error d) (RowsAffected d) s (Explain d).

(** [fmt.Sprintf("%p", stmt) + key]. *)
Definition instanceKey (s : StatementT) (k : string) : string :=
  HexString.of_Z (ptr s) +:+ k.

(** [db.InstanceSet(key, value)]: stores into the statement's settings. *)
Definition InstanceSet (d : DB) (k : string) (v : iface) : M DB :=
  s <- deref (Statement d) ;;
  ret (set_Statement (Some (set_Settings (<[instanceKey s k := v]> (Settings s)) s)) d).

(** [db.InstanceGet(key)]: the value and whether it is there. *)
Definition InstanceGet (d : DB) (k : string) : M (iface * bool) :=
  s <- deref (Statement d) ;;
  ret match Settings s !! instanceKey s k with
      | Some v => (v, true)
      | None => (INil, false)
      end.

(** [db.Logger.Error(ctx, msg)]. *)
Definition Logger_Error (msg : string) : M unit :=
  modify (fun w => set_dbLog (dbLog w ++ [msg]) w).

End gorm.

(* ===================================================================== *)
(** ** The plugin: istio-gorm-tracing.go *)
(* ===================================================================== *)

Record IstioGormTracing := mkIstioGormTracing {
  ServiceName : string;
  CollectorEndpoint : string
}.

Definition spankey : string := "istio-gorm-tracing".

Definition _eventBeforeCreate : string := "istio-gorm-tracing-event:before_create".
Definition _eventAfterCreate : string := "istio-gorm-tracing-event:after_create".
Definition _eventBeforeUpdate : string := "istio-gorm-tracing-event:before_update".
Definition _eventAfterUpdate : string := "istio-gorm-tracing-event:after_update".
Definition _eventBeforeQuery : string := "istio-gorm-tracing-event:before_query".
Definition _eventAfterQuery : string := "istio-gorm-tracing-event:after_query".
Definition _eventBeforeDelete : string := "istio-gorm-tracing-event:before_delete".
Definition _eventAfterDelete : string := "istio-gorm-tracing-event:after_delete".
Definition _eventBeforeRow : string := "istio-gorm-tracing-event:before_row".
Definition _eventAfterRow : string := "istio-gorm-tracing-event:after_row".
Definition _eventBeforeRaw : string := "istio-gorm-tracing-event:before_raw".
Definition _eventAfterRaw : string := "istio-gorm-tracing-event:after_raw".

Definition _opCreate : string := "create".
Definition _opUpdate : string := "update".
Definition _opQuery : string := "query".
Definition _opDelete : string := "delete".
Definition _opRow : string := "row".
Definition _opRaw : string := "raw".

Definition Name (p : IstioGormTracing) : string := "IstioGormTracing".

(** The message both hooks give to [db.Logger.Error]. *)
Definition msgNoStatement : string :=
  "未定义 db.Statement 或 db.Statement.Context".

(** Go's [a || b]: [b] is evaluated only when [a] is false. *)
Definition orElse (a : bool) (b : M bool) : M bool :=
  if a then ret true else b.

Definition isNil {A} (p : option A) : bool :=
  match p with None => true | Some _ => false end.

(** [db.Statement == nil || db.Statement.Context == nil]. *)
Definition statementUnavailable (d : gorm.DB) : M bool :=
  orElse (isNil (gorm.Statement d))
    (s <- deref (gorm.Statement d) ;; ret (isNil (gorm.Context s))).

(** [_injectBefore(db, op)].  The hook changes the [DB] it is given through
    the pointer; the function returns the [DB] as the call leaves it. *)
Definition _injectBefore (db : option gorm.DB) (op : string) : M (option gorm.DB) :=
  match db with
  | None => ret None
  | Some d =>
      unavailable <- statementUnavailable d ;;
      if unavailable then
        gorm.Logger_Error msgNoStatement ;;;
        ret (Some d)
      else
        w <- get ;;
        let '(spanCtx, _) := zipkin.Extract (H w) in
        s <- deref (gorm.Statement d) ;;
        ctx <- deref (gorm.Context s) ;;
        span <- StartSpanFromContext ctx op [ChildOf spanCtx] ;;
        d' <- gorm.InstanceSet d spankey (ISpan span) ;;
        ret (Some d')
  end.

(** [after(db)]. *)
Definition after (db : option gorm.DB) : M (option gorm.DB) :=
  match db with
  | None => ret None
  | Some d =>
      unavailable <- statementUnavailable d ;;
      if unavailable then
        gorm.Logger_Error msgNoStatement ;;;
        ret (Some d)
      else
        got <- gorm.InstanceGet d spankey ;;
        let '(_span, isExist) := got in
        if negb isExist || iface_is_nil _span then ret (Some d)
        else
          let '(span, ok) := assertSpan _span in
          if negb ok || isNil span then ret (Some d)
          else
            sp <- deref span ;;
            defer (Span_Finish sp)
              ((match gorm.Error d with
                | Some e => Span_LogFields sp [log_Error e]
                | None => ret tt
                end) ;;;
               s <- deref (gorm.Statement d) ;;
               Span_LogFields sp
                 [log_String "sql" (gorm.Explain d (gorm.SQL s) (gorm.Vars s))] ;;;
               Span_LogFields sp [log_String "table" (gorm.Table s)] ;;;
               Span_LogFields sp [log_String "query" (gorm.SQL s)] ;;;
               Span_LogFields sp [log_String "bindings" (gorm.SQL s)] ;;;
               ret (Some d))
  end.

Definition beforeCreate (db : option gorm.DB) : M (option gorm.DB) :=
  _injectBefore db _opCreate.

Definition beforeUpdate (db : option gorm.DB) : M (option gorm.DB) :=
  _injectBefore db _opUpdate.

Definition beforeQuery (db : option gorm.DB) : M (option gorm.DB) :=
  _injectBefore db _opQuery.

Definition beforeDelete (db : option gorm.DB) : M (option gorm.DB) :=
  _injectBefore db _opDelete.

Definition beforeRow (db : option gorm.DB) : M (option gorm.DB) :=
  _injectBefore db _opRow.

Definition beforeRaw (db : option gorm.DB) : M (option gorm.DB) :=
  _injectBefore db _opRaw.

(** The six processors of gorm's callback manager, and the before-hook
    [Initialize] registers on each; [after] is registered on all six. *)
Inductive OpKind := Create | Update | Query | Delete | Row | Raw.

Definition beforeHook (k : OpKind) : option gorm.DB -> M (option gorm.DB) :=
  match k with
  | Create => beforeCreate
  | Update => beforeUpdate
  | Query => beforeQuery
  | Delete => beforeDelete
  | Row => beforeRow
  | Raw => beforeRaw
  end.

Definition opName (k : OpKind) : string :=
  match k with
  | Create => _opCreate
  | Update => _opUpdate
  | Query => _opQuery
  | Delete => _opDelete
  | Row => _opRow
  | Raw => _opRaw
  end.

(** *** Start-up *)

(** [config.Configuration], with the fields [bootTracerBasedJaeger] sets. *)
Record Configuration := mkConfiguration {
  SamplerType : string;
  SamplerParam : Z;
  cfgServiceName : string;
  LogSpans : bool;
  cfgCollectorEndpoint : string
}.

Definition SamplerTypeConst : string := "const".

Definition log_Printf (line : string) : M unit :=
  modify (fun w => set_stdLog (stdLog w ++ [line]) w).

Section Boot.

(** [Configuration.NewTracer] of jaeger-client-go: the tracer or the
    error.  Whether the reporter can be built depends on the machine the
    process starts on, so the function is a parameter of the start-up
    code. *)
Variable NewTracer : Configuration -> Tracer + error.

(** With [LogSpans: true] and the logger of the log package, [NewTracer]
    writes these lines once the reporter is built, which is the last step
    that can fail: the logging reporter announces itself, and the reporter
    and the tracer each note that the logger has no debug level. *)
Definition msgLoggingReporter : string := "Initializing logging reporter".

Definition msgNoDebugLevel : string := "debug logging disabled".

Definition tracerStartLines : list string :=
  [msgNoDebugLevel; msgLoggingReporter; msgNoDebugLevel].

Definition bootTracerBasedJaeger (i : IstioGormTracing) : M unit :=
  match NewTracer (mkConfiguration SamplerTypeConst 1 (ServiceName i) true
                     (CollectorEndpoint i)) with
  | inr err =>
      log_Printf ("jaeger tracer 插件初始化失败, 错误原因: " +:+ err) ;;;
      os_Exit 1
  | inl tracer =>
      modify (fun w => set_stdLog (stdLog w ++ tracerStartLines) w) ;;;
      SetGlobalTracer tracer
  end.

Definition NewDefault (svcName collectorEndpoint : string) : M IstioGormTracing :=
  let i := mkIstioGormTracing svcName collectorEndpoint in
  bootTracerBasedJaeger i ;;;
  ret i.

End Boot.

(* ===================================================================== *)
(** ** gorm driving the hooks: one operation, and interleaved operations *)
(* ===================================================================== *)

(** What gorm's own callback of a processor leaves in the [DB] between the
    two hooks: the statement is built ([Table], [SQL], [Vars]) and the
    result is set ([Error], [RowsAffected]).  The statement keeps its
    address, its context and its settings. *)
Record Execution := mkExecution {
  x_Table : string;
  x_SQL : string;
  x_Vars : list gorm.Var;
  x_Error : option error;
  x_RowsAffected : Z
}.

Definition execute (x : Execution) (d : gorm.DB) : gorm.DB :=
  gorm.mkDB (x_Error x) (x_RowsAffected x)
    (match gorm.Statement d with
     | Some s => Some (gorm.mkStatement (gorm.ptr s) (gorm.Context s)
                         (x_Table x) (x_SQL x) (x_Vars x) (gorm.Settings s))
     | None => None
     end)
    (gorm.Explain d).

(** A process with several operations in flight, each on its own [DB]. *)
Record Sys := mkSys {
  world : World;
  dbs : list gorm.DB
}.

(** The steps that interleave: a request handler assigns [H]; gorm calls a
    before-hook, runs the operation, or calls [after] on operation [i]. *)
Inductive Event :=
| EvSetH (h : Header)
| EvBefore (i : nat) (k : OpKind)
| EvExec (i : nat) (x : Execution)
| EvAfter (i : nat).

Definition worldOf {A} (o : outcome A) : World :=
  match o with
  | Done _ w => w
  | Panic _ w => w
  | Exit _ w => w
  end.

Definition dbOf (o : outcome (option gorm.DB)) (d : gorm.DB) : gorm.DB :=
  match o with
  | Done (Some d') _ => d'
  | _ => d
  end.

Definition runHook (hook : option gorm.DB -> M (option gorm.DB)) (i : nat)
    (sys : Sys) : Sys :=
  match dbs sys !! i with
  | None => sys
  | Some d =>
      let o := hook (Some d) (world sys) in
      mkSys (worldOf o) (<[i := dbOf o d]> (dbs sys))
  end.

Definition step (ev : Event) (sys : Sys) : Sys :=
  match ev with
  | EvSetH h => mkSys (set_H h (world sys)) (dbs sys)
  | EvBefore i k => runHook (beforeHook k) i sys
  | EvExec i x =>
      match dbs sys !! i with
      | None => sys
      | Some d => mkSys (world sys) (<[i := execute x d]> (dbs sys))
      end
  | EvAfter i => runHook after i sys
  end.

Definition run (sched : list Event) (sys : Sys) : Sys :=
  fold_left (fun s ev => step ev s) sched sys.

(** The operation an event belongs to. *)
Definition target (ev : Event) : option nat :=
  match ev with
  | EvSetH _ => None
  | EvBefore i _ => Some i
  | EvExec i _ => Some i
  | EvAfter i => Some i
  end.

(* ===================================================================== *)
(** ** Vocabulary of the statements *)
(* ===================================================================== *)

(** The value stored for the plugin in the instance store of [d]. *)
Definition storedSpan (d : gorm.DB) : option iface :=
  match gorm.Statement d with
  | Some s => gorm.Settings s !! gorm.instanceKey s spankey
  | None => None
  end.

(** The statement or its context is missing. *)
Definition unbound (d : gorm.DB) : Prop :=
  match gorm.Statement d with
  | None => True
  | Some s => gorm.Context s = None
  end.

(** The [DB] after [InstanceSet(spankey, v)]. *)
Definition withStored (v : iface) (d : gorm.DB) (s : gorm.StatementT) : gorm.DB :=
  gorm.set_Statement
    (Some (gorm.set_Settings (<[gorm.instanceKey s spankey := v]> (gorm.Settings s)) s)) d.

(** The context of the span [StartSpan] makes from the references [refs]
    when the generator gives [id]. *)
Definition startedContext (refs : list Reference) (id : Z) : jaeger.SpanContext :=
  let '(_, parent, hasParent0) :=
    tracer.resolveReferences refs [] jaeger.emptyContext false in
  let hasParent := hasParent0 || tracer.isValidReference parent in
  tracer.sampleOnCreate
    (if negb hasParent || negb (jaeger.IsValid parent) then
       jaeger.mkSpanContext (jaeger.mkTraceID 0 id) id 0 false false
         (if hasParent then jaeger.baggage parent else ∅)
     else
       jaeger.mkSpanContext (jaeger.traceID parent) id (jaeger.spanID parent)
         (jaeger.sampled parent) (jaeger.final parent) (jaeger.baggage parent)).

Definition keptReferences (refs : list Reference) : list Reference :=
  fst (fst (tracer.resolveReferences refs [] jaeger.emptyContext false)).

(** The options [_injectBefore] ends up giving to the tracer: the context
    extracted from the carrier [h], then the span of the context [c]. *)
Definition beforeReferences (h : Header) (c : gocontext.Context) : list Reference :=
  match gocontext.activeSpan c with
  | Some parentCtx => [ChildOf (fst (zipkin.Extract h)); ChildOf parentCtx]
  | None => [ChildOf (fst (zipkin.Extract h))]
  end.

(** The span [_injectBefore] starts in the world [w]. *)
Definition beforeSpan (op : string) (c : gocontext.Context) (w : World) : Span :=
  mkSpan (startedContext (beforeReferences (H w) c) (Zpos (rng w (drawn w))))
    op (clock w) 0 (keptReferences (beforeReferences (H w) c)) [].

(** The world [_injectBefore] leaves when it starts a span. *)
Definition beforeWorld (op : string) (c : gocontext.Context) (w : World) : World :=
  set_spans (<[fresh (dom (spans w)) := beforeSpan op c w]> (spans w))
    (set_drawn (drawn w + 1)%N w).

(** The field lists [after] gives to [LogFields], in order. *)
Definition annotations (d : gorm.DB) (s : gorm.StatementT) : list (list Field) :=
  match gorm.Error d with
  | Some e => [[log_Error e]]
  | None => []
  end ++
  [ [log_String "sql" (gorm.Explain d (gorm.SQL s) (gorm.Vars s))];
    [log_String "table" (gorm.Table s)];
    [log_String "query" (gorm.SQL s)];
    [log_String "bindings" (gorm.SQL s)] ].

(** What a span keeps of what it is given to log: all of it if it is
    sampled, nothing if not. *)
Definition whenSampled {A} (sp : Span) (l : list A) : list A :=
  if jaeger.sampled (context sp) then l else [].

(** A span after [LogFields] with each of [fs] at time [now], and after
    [Finish] at time [now]. *)
Definition annotated (now : Z) (fs : list (list Field)) (sp : Span) : Span :=
  mkSpan (context sp) (operationName sp) (startTime sp) (duration sp)
    (references sp) (logs sp ++ whenSampled sp (map (mkLogRecord now) fs)).

Definition finished (now : Z) (sp : Span) : Span :=
  mkSpan (context sp) (operationName sp) (startTime sp) (now - startTime sp)
    (references sp) (logs sp).

(** Two worlds that differ at most in the spans, in the calls of [Finish]
    made, in what the reporter was given and in what it wrote through the
    log package. *)
Definition sameProcess (w w' : World) : Prop :=
  H w' = H w /\ globalTracer w' = globalTracer w /\ rng w' = rng w
  /\ drawn w' = drawn w /\ clock w' = clock w /\ dbLog w' = dbLog w.

(** What the reporter is given, and what it writes, when the span at [r]
    is finished in the world [w]. *)
Definition handedOver (r : SpanRef) (w : World) : list SpanRef :=
  match spans w !! r with
  | Some sp => whenSampled sp [r]
  | None => []
  end.

Definition reportLines (r : SpanRef) (w : World) : list string :=
  match spans w !! r with
  | Some sp => whenSampled sp [tracer.reportingLine sp]
  | None => []
  end.

(** The end of a span: its start plus its duration. *)
Definition endTime (sp : Span) : Z := startTime sp + duration sp.

(** What is stored under the span key is no span: nothing, the nil
    interface, or a value of another type. *)
Definition noSpanStored (d : gorm.DB) : Prop :=
  match storedSpan d with
  | None => True
  | Some INil => True
  | Some (IOther _) => True
  | Some (ISpan _) => False
  end.

(** A span that starts a new trace in the world [w]: no parent, and the
    trace id is the next number of the generator. *)
Definition isFreshRoot (w : World) (sp : Span) : Prop :=
  jaeger.parentID (context sp) = 0
  /\ jaeger.traceID (context sp) = jaeger.mkTraceID 0 (Zpos (rng w (drawn w))).

(* ===================================================================== *)
(** ** Concrete inputs *)
(* ===================================================================== *)

(** The carrier of the scenario of the specification. *)
Definition b3Header : Header :=
  [("X-B3-Traceid", ["1a2b"]); ("X-B3-Spanid", ["00ff"]); ("X-B3-Sampled", ["1"])].

(** A process after [NewDefault], at time 1000, with no span yet. *)
Definition demoWorld (h : Header) : World :=
  mkWorld h (JaegerTracer "istiogormtracing-service" "http://127.0.0.1:14268/api/traces")
    (fun n => N.succ_pos (n + 41)) 0 1000 ∅ [] [] [] tracerStartLines.

(** A dialector for the examples: it shows the bound values behind the
    statement text. *)
Definition showVar (v : gorm.Var) : string :=
  match v with
  | gorm.VInt n => HexString.of_Z n
  | gorm.VString s => "'" +:+ s +:+ "'"
  | gorm.VBool true => "true"
  | gorm.VBool false => "false"
  | gorm.VNull => "NULL"
  end.

Definition demoExplain (sql : string) (vars : list gorm.Var) : string :=
  sql +:+ " -- " +:+ String.concat ", " (map showVar vars).

Definition demoStatement (c : option gocontext.Context) : gorm.StatementT :=
  gorm.mkStatement 4096 c "users" EmptyString [] ∅.

Definition demoDB (c : option gocontext.Context) : gorm.DB :=
  gorm.mkDB None 0 (Some (demoStatement c)) demoExplain.

(** A context that already carries a span of trace 7 (span id 9), as a
    tracing middleware of the service leaves it. *)
Definition tracedContext : gocontext.Context :=
  gocontext.mkContext
    (Some (jaeger.mkSpanContext (jaeger.mkTraceID 0 7) 9 0 true true ∅)).

(** The same, of a trace that is finally not sampled (the caller of the
    service decided so, or the middleware uses a sampler of its own). *)
Definition unsampledContext : gocontext.Context :=
  gocontext.mkContext
    (Some (jaeger.mkSpanContext (jaeger.mkTraceID 0 7) 9 0 false true ∅)).

(** A [DB] whose statement is missing. *)
Definition noStatementDB : gorm.DB := gorm.mkDB None 0 None demoExplain.

(** A failed INSERT and a SELECT with two bound values. *)
Definition failedInsert : Execution :=
  mkExecution "users" "INSERT INTO users (name) VALUES (?)"
    [gorm.VString "xiaoming"] (Some "duplicate key") 0.

Definition selectTwoVars : Execution :=
  mkExecution "users" "SELECT * FROM users WHERE name = ? AND age > ?"
    [gorm.VString "xiaoming"; gorm.VInt 18] None 1.

(** [Configuration.NewTracer] as far as it depends on the configuration
    alone: without a service name there is no tracer. *)
Definition demoNewTracer (c : Configuration) : Tracer + error :=
  if String.eqb (cfgServiceName c) EmptyString then inr "no service name provided"
  else inl (JaegerTracer (cfgServiceName c) (cfgCollectorEndpoint c)).

(** The operation of the examples once its before-hook has run: the span
    it started is the first of the process. *)
Definition boundDB : gorm.DB :=
  withStored (ISpan (JaegerSpan 1%positive)) (demoDB (Some gocontext.Background))
    (demoStatement (Some gocontext.Background)).

Definition boundWorld : World :=
  beforeWorld _opQuery gocontext.Background (demoWorld b3Header).


(** A [DB] in whose store something that is no span sits under the key. *)
Definition foreignDB : gorm.DB :=
  withStored (IOther "not a span") (demoDB (Some gocontext.Background))
    (demoStatement (Some gocontext.Background)).

(** ** Interleaved operations *)

(** The operation [d] holds the span [r] in its instance store. *)
Definition ownsSpan (d : gorm.DB) (r : SpanRef) : Prop :=
  storedSpan d = Some (ISpan (JaegerSpan r)).

(** Every stored span exists, and no two operations hold the same span. *)
Definition isolated (sys : Sys) : Prop :=
  (forall i d r, dbs sys !! i = Some d -> ownsSpan d r ->
                 is_Some (spans (world sys) !! r))
  /\ (forall i j di dj r,
        dbs sys !! i = Some di -> dbs sys !! j = Some dj ->
        ownsSpan di r -> ownsSpan dj r -> i = j).

(** No operation has anything stored under the span key yet. *)
Definition nothingStored (ds : list gorm.DB) : bool :=
  forallb (fun d => match storedSpan d with None => true | Some _ => false end) ds.

(** Events of operations other than [i]; assignments to [H] are among
    them. *)
Definition targets (i : nat) (ev : Event) : bool :=
  match target ev with
  | Some j => Nat.eqb j i
  | None => false
  end.

Definition othersOnly (i : nat) (sched : list Event) : bool :=
  forallb (fun ev => negb (targets i ev)) sched.

(** The carrier of another request, with trace [bbbb]. *)
Definition headerB : Header :=
  [("X-B3-Traceid", ["bbbb"]); ("X-B3-Spanid", ["0002"]); ("X-B3-Sampled", ["1"])].

Definition operationAt (p : Z) : gorm.DB :=
  gorm.mkDB None 0
    (Some (gorm.mkStatement p (Some gocontext.Background) "users" EmptyString [] ∅))
    demoExplain.

(** A hundred requests in one process.  Request [n] carries the trace
    [n + 1] and the span 1, and its handler issues operation [n]. *)
Definition requestHeader (n : nat) : Header :=
  [("X-B3-Traceid", [jaeger.hex16 (Z.of_nat n + 1)]); ("X-B3-Spanid", ["0001"]);
   ("X-B3-Sampled", ["1"])].

Definition hundredRequests : Sys :=
  mkSys (demoWorld []) (map (fun n => operationAt (4096 + Z.of_nat n)) (seq 0 100)).

(** Every handler assigns [H] before any operation reaches its
    before-hook. *)
Definition crossedSchedule : list Event :=
  map (fun n => EvSetH (requestHeader n)) (seq 0 100)
  ++ map (fun n => EvBefore n Query) (seq 0 100).

(** The trace of the span operation [i] holds. *)
Definition linkedTrace (sys : Sys) (i : nat) : option jaeger.TraceID :=
  match dbs sys !! i with
  | Some d =>
      match storedSpan d with
      | Some (ISpan (JaegerSpan r)) =>
          match spans (world sys) !! r with
          | Some sp => Some (jaeger.traceID (context sp))
          | None => None
          end
      | _ => None
      end
  | None => None
  end.

(** A hundred operations in flight.  Operation 7 is an UPDATE that has
    started its span and failed; meanwhile [H] is assigned again and the
    operations 8 to 99 reach their before-hooks. *)
Definition hundredOperations : Sys :=
  mkSys (demoWorld b3Header) (map (fun n => operationAt (Z.of_nat n)) (seq 0 100)).

Definition sevenRuns : list Event := [EvBefore 7 Update; EvExec 7 failedInsert].

Definition othersRun : list Event :=
  EvSetH headerB :: map (fun n => EvBefore n Query) (seq 8 92).

Definition sevenDB : gorm.DB :=
  execute failedInsert
    (withStored (ISpan (JaegerSpan 1%positive)) (operationAt 7)
       (gorm.mkStatement 7 (Some gocontext.Background) "users" EmptyString [] ∅)).

(* ===================================================================== *)
(** ** The plugin, continued: [Initialize] *)
(* ===================================================================== *)

(** gorm's callback manager, as [Initialize] uses it.  Each of the six
    processors ([Create()], [Update()], [Query()], [Delete()], [Row()],
    [Raw()]) keeps the list of the callbacks registered on it;
    [Before(name)] and [After(name)] give the place of a new callback next
    to the callback called [name]. *)
Module callbacks.

Inductive Position := Before (anchor : string) | After (anchor : string).

Record callback := mkCallback {
  processor : OpKind;
  position : Position;
  name : string;
  handler : option gorm.DB -> M (option gorm.DB)
}.

Definition sameProcessor (a b : OpKind) : bool :=
  match a, b with
  | Create, Create | Update, Update | Query, Query
  | Delete, Delete | Row, Row | Raw, Raw => true
  | _, _ => false
  end.

(** The callbacks of one processor, in the order of their registration,
    out of the callbacks of all processors. *)
Definition ofProcessor (k : OpKind) (cbs : list callback) : list callback :=
  List.filter (fun c => sameProcessor (processor c) k) cbs.

Section Register.

(** [processor.compile]: putting the callbacks of a processor in order,
    which can fail.  Its result is a parameter. *)
Variable compile : OpKind -> list callback -> option error.

(** [Register(name, fn)] on a callback of processor [k] at place [pos]: the
    callback is appended to the processor, then the processor is compiled
    and the error of that is returned. *)
Definition Register (k : OpKind) (pos : Position) (nm : string)
    (fn : option gorm.DB -> M (option gorm.DB)) (cbs : list callback)
    : option error * list callback :=
  let cbs' := cbs ++ [mkCallback k pos nm fn] in
  (compile k (ofProcessor k cbs'), cbs').

End Register.

End callbacks.

(** The loop of [Initialize] over the slice of errors: the first error
    that is not [nil] is returned, [nil] when there is none. *)
Fixpoint firstError (es : list (option error)) : option error :=
  match es with
  | [] => None
  | Some e :: _ => Some e
  | None :: rest => firstError rest
  end.

Section Initialize.

Variable compile : OpKind -> list callbacks.callback -> option error.

(** [Initialize(db)], on the callbacks of [db].  The slice literal is
    evaluated first, element by element, so all twelve registrations are
    made before the loop looks at the first error. *)
Definition Initialize (p : IstioGormTracing) (cbs : list callbacks.callback)
    : option error * list callbacks.callback :=
  let '(e1, c1) := callbacks.Register compile Create (callbacks.Before "gorm:create")
                     _eventBeforeCreate beforeCreate cbs in
  let '(e2, c2) := callbacks.Register compile Create (callbacks.After "gorm:create")
                     _eventAfterCreate after c1 in
  let '(e3, c3) := callbacks.Register compile Update (callbacks.Before "gorm:update")
                     _eventBeforeUpdate beforeUpdate c2 in
  let '(e4, c4) := callbacks.Register compile Update (callbacks.After "gorm:update")
                     _eventAfterUpdate after c3 in
  let '(e5, c5) := callbacks.Register compile Query (callbacks.Before "gorm:query")
                     _eventBeforeQuery beforeQuery c4 in
  let '(e6, c6) := callbacks.Register compile Query (callbacks.After "gorm:query")
                     _eventAfterQuery after c5 in
  let '(e7, c7) := callbacks.Register compile Delete (callbacks.Before "gorm:delete")
                     _eventBeforeDelete beforeDelete c6 in
  let '(e8, c8) := callbacks.Register compile Delete (callbacks.After "gorm:delete")
                     _eventAfterDelete after c7 in
  let '(e9, c9) := callbacks.Register compile Row (callbacks.Before "gorm:row")
                     _eventBeforeRow beforeRow c8 in
  let '(e10, c10) := callbacks.Register compile Row (callbacks.After "gorm:row")
                       _eventAfterRow after c9 in
  let '(e11, c11) := callbacks.Register compile Raw (callbacks.Before "gorm:raw")
                       _eventBeforeRaw beforeRaw c10 in
  let '(e12, c12) := callbacks.Register compile Raw (callbacks.After "gorm:raw")
                       _eventAfterRaw after c11 in
  (firstError [e1; e2; e3; e4; e5; e6; e7; e8; e9; e10; e11; e12], c12).

End Initialize.

(** The twelve callbacks of [Initialize], in the order of the source. *)
Definition registered : list callbacks.callback :=
  [ callbacks.mkCallback Create (callbacks.Before "gorm:create") _eventBeforeCreate beforeCreate;
    callbacks.mkCallback Create (callbacks.After "gorm:create") _eventAfterCreate after;
    callbacks.mkCallback Update (callbacks.Before "gorm:update") _eventBeforeUpdate beforeUpdate;
    callbacks.mkCallback Update (callbacks.After "gorm:update") _eventAfterUpdate after;
    callbacks.mkCallback Query (callbacks.Before "gorm:query") _eventBeforeQuery beforeQuery;
    callbacks.mkCallback Query (callbacks.After "gorm:query") _eventAfterQuery after;
    callbacks.mkCallback Delete (callbacks.Before "gorm:delete") _eventBeforeDelete beforeDelete;
    callbacks.mkCallback Delete (callbacks.After "gorm:delete") _eventAfterDelete after;
    callbacks.mkCallback Row (callbacks.Before "gorm:row") _eventBeforeRow beforeRow;
    callbacks.mkCallback Row (callbacks.After "gorm:row") _eventAfterRow after;
    callbacks.mkCallback Raw (callbacks.Before "gorm:raw") _eventBeforeRaw beforeRaw;
    callbacks.mkCallback Raw (callbacks.After "gorm:raw") _eventAfterRaw after ].

(** The error of the [n]-th registration of [Initialize] on the callbacks
    [cbs]: the processor of the [n]-th callback is compiled with what has
    been registered up to and including it. *)
Definition registrationError (compile : OpKind -> list callbacks.callback -> option error)
    (cbs : list callbacks.callback) (n : nat) : option error :=
  match registered !! n with
  | Some c =>
      compile (callbacks.processor c)
        (callbacks.ofProcessor (callbacks.processor c) (cbs ++ take (S n) registered))
  | None => None
  end.

(* ===================================================================== *)
(** ** Further vocabulary *)
(* ===================================================================== *)



(** A copy of the statement of [d] at the address [p], with the settings
    copied as they are (what [Statement.clone] makes of them). *)
Definition cloneAt (p : Z) (d : gorm.DB) : gorm.DB :=
  gorm.mkDB (gorm.Error d) (gorm.RowsAffected d)
    (match gorm.Statement d with
     | Some s => Some (gorm.mkStatement p (gorm.Context s) (gorm.Table s)
                         (gorm.SQL s) (gorm.Vars s) (gorm.Settings s))
     | None => None
     end)
    (gorm.Explain d).

(* ===================================================================== *)
(** ** Vocabulary for the carrier *)
(* ===================================================================== *)

(** What one call of the closure of [Extract] does to its variables. *)
Inductive Assignment :=
| SetTrace (t : jaeger.TraceID)
| SetParent (n : Z)
| SetSpan (n : Z)
| SetSampled
| SetBaggage (k v : string)
| SetNothing.

Definition assign (u : Assignment) (st : zipkin.ExtractState) : zipkin.ExtractState :=
  match u with
  | SetTrace t =>
      zipkin.mkExtractState t (zipkin.e_spanID st) (zipkin.e_parentID st)
        (zipkin.e_sampled st) (zipkin.e_baggage st)
  | SetParent n =>
      zipkin.mkExtractState (zipkin.e_traceID st) (zipkin.e_spanID st) n
        (zipkin.e_sampled st) (zipkin.e_baggage st)
  | SetSpan n =>
      zipkin.mkExtractState (zipkin.e_traceID st) n (zipkin.e_parentID st)
        (zipkin.e_sampled st) (zipkin.e_baggage st)
  | SetSampled =>
      zipkin.mkExtractState (zipkin.e_traceID st) (zipkin.e_spanID st)
        (zipkin.e_parentID st) true (zipkin.e_baggage st)
  | SetBaggage k v =>
      zipkin.mkExtractState (zipkin.e_traceID st) (zipkin.e_spanID st)
        (zipkin.e_parentID st) (zipkin.e_sampled st) (<[k := v]> (zipkin.e_baggage st))
  | SetNothing => st
  end.

(** The assignment the closure makes for the lower-case key [key] and the
    value [value], or its error. *)
Definition assignmentOf (key value : string) : Assignment + error :=
  if String.eqb key "x-b3-traceid" then
    match jaeger.TraceIDFromString value with
    | inl t => inl (SetTrace t)
    | inr e => inr e
    end
  else if String.eqb key "x-b3-parentspanid" then
    match zipkin.parseID value with
    | inl n => inl (SetParent n)
    | inr e => inr e
    end
  else if String.eqb key "x-b3-spanid" then
    match zipkin.parseID value with
    | inl n => inl (SetSpan n)
    | inr e => inr e
    end
  else if String.eqb key "x-b3-sampled"
          && (String.eqb value "1" || String.eqb value "true") then
    inl SetSampled
  else if String.prefix zipkin.baggagePrefix key then
    inl (SetBaggage (jaeger.substring_from (String.length zipkin.baggagePrefix) key) value)
  else inl SetNothing.

(** The value [value] under the header name [k] is an identifier that does
    not parse. *)
Definition malformedId (k value : string) : Prop :=
  exists e, assignmentOf (zipkin.ToLower k) value = inr e.

(** Results of the loop over the carrier that differ at most in which
    error they hold. *)
Definition sameResult (r1 r2 : zipkin.ExtractState + error) : Prop :=
  match r1, r2 with
  | inl a, inl b => a = b
  | inr _, inr _ => True
  | _, _ => False
  end.

(** One call of the closure, and one entry of the carrier, on the result
    so far: after an error nothing more is done. *)
Definition thenHandle (k v : string) (r : zipkin.ExtractState + error)
    : zipkin.ExtractState + error :=
  match r with
  | inl st => zipkin.extractHandler k v st
  | inr e => inr e
  end.

Definition thenEntry (e : string * list string) (r : zipkin.ExtractState + error)
    : zipkin.ExtractState + error :=
  match r with
  | inl st => opentracing.foreachVal zipkin.extractHandler (fst e) (snd e) st
  | inr x => inr x
  end.

Definition runAll {A} (fs : list (A -> A)) (a : A) : A :=
  fold_left (fun x f => f x) fs a.

(** The header names of a carrier in lower case. *)
Definition lowerNames (h : Header) : list string :=
  map (fun e => zipkin.ToLower (fst e)) h.

(** Two carriers with the same entries, the names written in another
    letter case. *)
Definition sameUpToCase (h1 h2 : Header) : Prop :=
  Forall2 (fun a b => zipkin.ToLower (fst a) = zipkin.ToLower (fst b) /\ snd a = snd b)
    h1 h2.

(** Case analysis on a header name and on what the closure does. *)
Ltac split_key k lit :=
  let E := fresh "E" in
  destruct (String.eqb k lit) eqn:E; [apply String.eqb_eq in E|].

Ltac open_assignment E :=
  cbn beta iota in E;
  repeat match type of E with
         | context [match ?x with inl _ => _ | inr _ => _ end] => destruct x
         | context [if ?b then _ else _] => destruct b eqn:?
         end;
  try discriminate E.

(* ===================================================================== *)
(** * Properties *)
(* ===================================================================== *)


(** ** The propagator on the carrier of the specification *)

Example extract_b3_scenario :
  let r := zipkin.Extract
             [("X-B3-Traceid", ["1a2b"]); ("X-B3-Spanid", ["00ff"]); ("X-B3-Sampled", ["1"])] in
  snd r = None /\ jaeger.traceID (fst r) = jaeger.mkTraceID 0 6699
  /\ jaeger.spanID (fst r) = 255 /\ jaeger.IsValid (fst r) = true.
Proof. vm_compute. auto. Qed.

(** ** The monad and the tracer *)

Lemma bind_Done {A B} (m : M A) (f : A -> M B) w a w' :
  m w = Done a w' -> bind m f w = f a w'.
Proof. intros E. unfold bind. now rewrite E. Qed.

Lemma StartSpan_spec op refs w :
  tracer.StartSpan op refs w =
    Done (fresh (dom (spans w)))
      (set_spans
         (<[fresh (dom (spans w)) :=
              mkSpan (startedContext refs (Zpos (rng w (drawn w)))) op (clock w) 0
                (keptReferences refs) []]> (spans w))
         (set_drawn (drawn w + 1)%N w)).
Proof.
  unfold tracer.StartSpan, startedContext, keptReferences.
  destruct (tracer.resolveReferences refs [] jaeger.emptyContext false)
    as [[kept parent] hp0].
  cbn [fst].
  destruct (negb (hp0 || tracer.isValidReference parent) || negb (jaeger.IsValid parent));
    reflexivity.
Qed.

(** The sampling decision changes nothing but the sampling state. *)
Lemma sampleOnCreate_ids c :
  jaeger.traceID (tracer.sampleOnCreate c) = jaeger.traceID c
  /\ jaeger.spanID (tracer.sampleOnCreate c) = jaeger.spanID c
  /\ jaeger.parentID (tracer.sampleOnCreate c) = jaeger.parentID c
  /\ jaeger.baggage (tracer.sampleOnCreate c) = jaeger.baggage c.
Proof. unfold tracer.sampleOnCreate. destruct (jaeger.final c); repeat split. Qed.

(** After the decision a span is sampled unless its state was final and
    not sampled before. *)
Lemma sampleOnCreate_sampled c :
  jaeger.sampled (tracer.sampleOnCreate c) = negb (jaeger.final c) || jaeger.sampled c.
Proof. unfold tracer.sampleOnCreate. destruct (jaeger.final c); reflexivity. Qed.

Lemma resolveReferences_hasParent refs acc parent :
  exists kept, tracer.resolveReferences refs acc parent true = (kept, parent, true).
Proof.
  revert acc. induction refs as [|r rest IH]; intros acc; cbn.
  - eauto.
  - destruct (tracer.isValidReference (refContext r)); cbn; apply IH.
Qed.

Lemma startedContext_child parentCtx rest id :
  jaeger.IsValid parentCtx = true ->
  startedContext (ChildOf parentCtx :: rest) id =
    tracer.sampleOnCreate
      (jaeger.mkSpanContext (jaeger.traceID parentCtx) id (jaeger.spanID parentCtx)
         (jaeger.sampled parentCtx) (jaeger.final parentCtx) (jaeger.baggage parentCtx)).
Proof.
  intros V. unfold startedContext. cbn.
  unfold tracer.isValidReference. rewrite V. cbn.
  match goal with
  | |- context [tracer.resolveReferences rest ?acc parentCtx true] =>
      destruct (resolveReferences_hasParent rest acc parentCtx) as [kept ->]
  end.
  cbn. now rewrite V.
Qed.

Lemma startedContext_root parentCtx id :
  jaeger.IsValid parentCtx = false ->
  let c := startedContext [ChildOf parentCtx] id in
  jaeger.traceID c = jaeger.mkTraceID 0 id /\ jaeger.spanID c = id
  /\ jaeger.parentID c = 0.
Proof.
  intros V. unfold startedContext. cbn.
  destruct (tracer.isValidReference parentCtx); cbn; rewrite ?V; cbn; auto.
Qed.

(** Without a valid parent the sampler decides, and it samples. *)
Lemma startedContext_root_sampled parentCtx id :
  jaeger.IsValid parentCtx = false ->
  jaeger.sampled (startedContext [ChildOf parentCtx] id) = true.
Proof.
  intros V. unfold startedContext. cbn.
  destruct (tracer.isValidReference parentCtx); cbn; rewrite ?V; cbn; auto.
Qed.

Lemma startedContext_valid refs (p : positive) :
  jaeger.IsValid (startedContext refs (Zpos p)) = true.
Proof.
  unfold startedContext.
  destruct (tracer.resolveReferences refs [] jaeger.emptyContext false)
    as [[kept parent] hp0].
  unfold jaeger.IsValid at 1.
  destruct (sampleOnCreate_ids
              (if negb (hp0 || tracer.isValidReference parent) || negb (jaeger.IsValid parent)
               then jaeger.mkSpanContext (jaeger.mkTraceID 0 (Z.pos p)) (Z.pos p) 0 false false
                      (if hp0 || tracer.isValidReference parent
                       then jaeger.baggage parent else ∅)
               else jaeger.mkSpanContext (jaeger.traceID parent) (Z.pos p)
                      (jaeger.spanID parent) (jaeger.sampled parent) (jaeger.final parent)
                      (jaeger.baggage parent))) as (-> & -> & _).
  destruct (jaeger.IsValid parent) eqn:V.
  - unfold tracer.isValidReference. rewrite V, orb_true_r. cbn.
    unfold jaeger.IsValid in V. apply andb_true_iff in V as [-> _]. reflexivity.
  - rewrite orb_true_r. reflexivity.
Qed.

(** The parent the loop over the references ends with is the one it
    started with or the context of one of the references. *)
Lemma resolveReferences_parent refs acc parent hp :
  let p := snd (fst (tracer.resolveReferences refs acc parent hp)) in
  p = parent \/ exists r, In r refs /\ p = refContext r.
Proof.
  revert acc parent hp. induction refs as [|r rest IH]; intros acc parent hp; cbn.
  - now left.
  - destruct (tracer.isValidReference (refContext r)); cbn.
    + destruct hp; cbn.
      * destruct (IH (if jaeger.IsValid (refContext r) then acc ++ [r] else acc)
                    parent true) as [E|(r' & Hin & E)]; [now left|].
        right. exists r'. auto.
      * destruct (IH (if jaeger.IsValid (refContext r) then acc ++ [r] else acc)
                    (refContext r) (tracer.isChildOf (refType r)))
          as [E|(r' & Hin & E)].
        -- right. exists r. auto.
        -- right. exists r'. auto.
    + destruct (IH acc parent hp) as [E|(r' & Hin & E)]; [now left|].
      right. exists r'. auto.
Qed.

(** A started span is sampled unless one of the references is finally not
    sampled. *)
Lemma startedContext_sampled refs id :
  (forall r, In r refs ->
             jaeger.final (refContext r) = true -> jaeger.sampled (refContext r) = true) ->
  jaeger.sampled (startedContext refs id) = true.
Proof.
  intros Hrefs. unfold startedContext.
  pose proof (resolveReferences_parent refs [] jaeger.emptyContext false) as Hp.
  destruct (tracer.resolveReferences refs [] jaeger.emptyContext false)
    as [[kept parent] hp0].
  cbn in Hp. rewrite sampleOnCreate_sampled.
  destruct (negb (hp0 || tracer.isValidReference parent) || negb (jaeger.IsValid parent));
    cbn; [reflexivity|].
  destruct Hp as [->|(r & Hin & ->)]; [reflexivity|].
  destruct (jaeger.final (refContext r)) eqn:Hf; [|reflexivity].
  cbn. apply Hrefs; assumption.
Qed.

(** The context the B3 propagator extracts has a sampling state that is
    not final. *)
Lemma Extract_not_final h : jaeger.final (fst (zipkin.Extract h)) = false.
Proof.
  unfold zipkin.Extract.
  destruct (opentracing.ForeachKey zipkin.extractHandler h zipkin.extractInit) as [st|e];
    [|reflexivity].
  destruct (negb (jaeger.TraceID_IsValid (zipkin.e_traceID st))); reflexivity.
Qed.

(** The span of a before-hook is sampled unless the context of the
    statement carries a span that is finally not sampled. *)
Lemma before_span_sampled h c id :
  (forall p, gocontext.activeSpan c = Some p ->
             jaeger.final p = true -> jaeger.sampled p = true) ->
  jaeger.sampled (startedContext (beforeReferences h c) id) = true.
Proof.
  intros Hp. apply startedContext_sampled. intros r Hin Hf.
  unfold beforeReferences in Hin.
  destruct (gocontext.activeSpan c) as [p|] eqn:Hc; cbn in Hin.
  - destruct Hin as [<-|[<-|[]]].
    + cbn in Hf. rewrite Extract_not_final in Hf. discriminate Hf.
    + cbn in *. now apply Hp.
  - destruct Hin as [<-|[]]. cbn in Hf. rewrite Extract_not_final in Hf. discriminate Hf.
Qed.

Lemma fresh_span_unused (w : World) : spans w !! fresh (dom (spans w)) = None.
Proof. apply not_elem_of_dom, is_fresh. Qed.

(** ** The guards of the hooks *)

Lemma statementUnavailable_bound d s c w :
  gorm.Statement d = Some s -> gorm.Context s = Some c ->
  statementUnavailable d w = Done false w.
Proof.
  intros Hs Hc. unfold statementUnavailable, orElse, bind, deref, ret.
  now rewrite Hs, Hc.
Qed.

Lemma statementUnavailable_unbound d w :
  unbound d -> statementUnavailable d w = Done true w.
Proof.
  unfold unbound, statementUnavailable, orElse, bind, deref, ret.
  destruct (gorm.Statement d) as [s|]; [|done].
  intros ->. reflexivity.
Qed.

(** ** The before-hook *)

Lemma storedSpan_withStored v d s : storedSpan (withStored v d s) = Some v.
Proof. unfold storedSpan, withStored. cbn. apply lookup_insert_eq. Qed.

Lemma injectBefore_bound d s c op w svc ep :
  gorm.Statement d = Some s -> gorm.Context s = Some c ->
  globalTracer w = JaegerTracer svc ep ->
  _injectBefore (Some d) op w =
    Done (Some (withStored (ISpan (JaegerSpan (fresh (dom (spans w))))) d s))
      (beforeWorld op c w).
Proof.
  intros Hs Hc Ht. unfold _injectBefore.
  rewrite (bind_Done _ _ _ _ _ (statementUnavailable_bound d s c w Hs Hc)).
  unfold get. unfold bind at 1.
  destruct (zipkin.Extract (H w)) as [spanCtx err] eqn:E.
  unfold bind at 1. rewrite Hs. cbn [deref ret].
  unfold bind at 1. rewrite Hc. cbn [deref ret].
  unfold StartSpanFromContext, beforeWorld, beforeSpan, beforeReferences.
  rewrite E. cbn [fst].
  unfold bind at 1. unfold bind at 1. unfold get. rewrite Ht.
  unfold bind at 1. rewrite StartSpan_spec. cbn [ret].
  unfold gorm.InstanceSet, bind, deref, ret. rewrite Hs.
  destruct (gocontext.activeSpan c); reflexivity.
Qed.

Lemma injectBefore_unbound d op w :
  unbound d ->
  _injectBefore (Some d) op w =
    Done (Some d) (set_dbLog (dbLog w ++ [msgNoStatement]) w).
Proof.
  intros U. unfold _injectBefore.
  rewrite (bind_Done _ _ _ _ _ (statementUnavailable_unbound d w U)).
  reflexivity.
Qed.

Lemma beforeHook_injectBefore k db : beforeHook k db = _injectBefore db (opName k).
Proof. destruct k; reflexivity. Qed.

(** Every call of a before-hook returns and leaves the error and the
    result of the operation alone; it either changes nothing but the
    logger, or stores the no-op span, or stores a new span. *)
Lemma injectBefore_cases d op w :
  exists d' w',
    _injectBefore (Some d) op w = Done (Some d') w'
    /\ (gorm.Error d' = gorm.Error d /\ gorm.RowsAffected d' = gorm.RowsAffected d)
    /\ ((d' = d /\ spans w' = spans w)
        \/ (storedSpan d' = Some (ISpan NoopSpan) /\ spans w' = spans w)
        \/ (exists sp,
              storedSpan d' = Some (ISpan (JaegerSpan (fresh (dom (spans w)))))
              /\ spans w' = <[fresh (dom (spans w)) := sp]> (spans w))).
Proof.
  destruct (gorm.Statement d) as [s|] eqn:Hs.
  2:{ eexists _, _. split; [apply injectBefore_unbound; unfold unbound; now rewrite Hs|].
      split; [split; reflexivity|]. left. split; reflexivity. }
  destruct (gorm.Context s) as [c|] eqn:Hc.
  2:{ eexists _, _. split; [apply injectBefore_unbound; unfold unbound; now rewrite Hs|].
      split; [split; reflexivity|]. left. split; reflexivity. }
  destruct (globalTracer w) as [|svc ep] eqn:Ht.
  - eexists _, _. split.
    + unfold _injectBefore.
      rewrite (bind_Done _ _ _ _ _ (statementUnavailable_bound d s c w Hs Hc)).
      unfold get. unfold bind at 1.
      destruct (zipkin.Extract (H w)) as [spanCtx err].
      unfold bind at 1. rewrite Hs. cbn [deref ret].
      unfold bind at 1. rewrite Hc. cbn [deref ret].
      unfold StartSpanFromContext.
      unfold bind at 1. unfold bind at 1. unfold get. rewrite Ht. cbn [ret].
      unfold gorm.InstanceSet, bind, deref, ret. rewrite Hs. reflexivity.
    + split; [split; reflexivity|].
      right. left. split; [apply (storedSpan_withStored _ d s)|reflexivity].
  - eexists _, _. split; [exact (injectBefore_bound d s c op w svc ep Hs Hc Ht)|].
    split; [split; reflexivity|].
    right. right. eexists. split; [apply storedSpan_withStored|reflexivity].
Qed.

(** ** The after-hook *)

Lemma after_unbound d w :
  unbound d ->
  after (Some d) w = Done (Some d) (set_dbLog (dbLog w ++ [msgNoStatement]) w).
Proof.
  intros U. unfold after.
  rewrite (bind_Done _ _ _ _ _ (statementUnavailable_unbound d w U)).
  reflexivity.
Qed.

Lemma after_lookup d s c w :
  gorm.Statement d = Some s -> gorm.Context s = Some c ->
  after (Some d) w =
    match gorm.Settings s !! gorm.instanceKey s spankey with
    | Some (ISpan sp) =>
        defer (Span_Finish sp)
          (bind (match gorm.Error d with
                 | Some e => Span_LogFields sp [log_Error e]
                 | None => ret tt
                 end)
             (fun _ =>
                bind (Span_LogFields sp
                        [log_String "sql" (gorm.Explain d (gorm.SQL s) (gorm.Vars s))])
                  (fun _ =>
                     bind (Span_LogFields sp [log_String "table" (gorm.Table s)])
                       (fun _ =>
                          bind (Span_LogFields sp [log_String "query" (gorm.SQL s)])
                            (fun _ =>
                               bind (Span_LogFields sp
                                       [log_String "bindings" (gorm.SQL s)])
                                 (fun _ => ret (Some d))))))) w
    | _ => Done (Some d) w
    end.
Proof.
  intros Hs Hc. unfold after.
  rewrite (bind_Done _ _ _ _ _ (statementUnavailable_bound d s c w Hs Hc)).
  unfold gorm.InstanceGet. unfold bind at 1. unfold bind at 1.
  rewrite Hs. cbn [deref ret].
  destruct (gorm.Settings s !! gorm.instanceKey s spankey) as [[|sp|v]|];
    reflexivity.
Qed.

Lemma after_no_span d s c w :
  gorm.Statement d = Some s -> gorm.Context s = Some c -> noSpanStored d ->
  after (Some d) w = Done (Some d) w.
Proof.
  intros Hs Hc Hn. rewrite (after_lookup d s c w Hs Hc).
  unfold noSpanStored, storedSpan in Hn. rewrite Hs in Hn.
  destruct (gorm.Settings s !! gorm.instanceKey s spankey) as [[|sp|v]|];
    done.
Qed.

Lemma after_noop_span d s c w :
  gorm.Statement d = Some s -> gorm.Context s = Some c ->
  storedSpan d = Some (ISpan NoopSpan) ->
  after (Some d) w = Done (Some d) w.
Proof.
  intros Hs Hc Hn. rewrite (after_lookup d s c w Hs Hc).
  unfold storedSpan in Hn. rewrite Hs in Hn. rewrite Hn.
  destruct (gorm.Error d); reflexivity.
Qed.

(** A nil span pointer under the key passes both tests for [nil]; the
    first call through it panics, and so does the deferred [Finish]. *)
Lemma after_nil_span d s c w :
  gorm.Statement d = Some s -> gorm.Context s = Some c ->
  storedSpan d = Some (ISpan NilJaegerSpan) ->
  after (Some d) w = Panic nilDeref w.
Proof.
  intros Hs Hc Hn. rewrite (after_lookup d s c w Hs Hc).
  unfold storedSpan in Hn. rewrite Hs in Hn. rewrite Hn.
  destruct (gorm.Error d); reflexivity.
Qed.

Lemma context_addRecord rec s : context (tracer.addRecord rec s) = context s.
Proof. unfold tracer.addRecord. destruct (jaeger.sampled (context s)); reflexivity. Qed.

Lemma addRecord_sampled rec s :
  jaeger.sampled (context s) = true ->
  tracer.addRecord rec s =
    mkSpan (context s) (operationName s) (startTime s) (duration s) (references s)
      (logs s ++ [rec]).
Proof. unfold tracer.addRecord. now intros ->. Qed.

Lemma addRecord_unsampled rec s :
  jaeger.sampled (context s) = false -> tracer.addRecord rec s = s.
Proof. unfold tracer.addRecord. now intros ->. Qed.

(** The world [after] leaves when a Jaeger span [r] is stored. *)
Lemma after_jaeger_span d s c r w :
  gorm.Statement d = Some s -> gorm.Context s = Some c ->
  storedSpan d = Some (ISpan (JaegerSpan r)) ->
  exists w',
    after (Some d) w = Done (Some d) w'
    /\ spans w' !! r =
         (fun sp => finished (clock w) (annotated (clock w) (annotations d s) sp))
           <$> spans w !! r
    /\ (forall r', r' <> r -> spans w' !! r' = spans w !! r')
    /\ finishCalls w' = finishCalls w ++ [r]
    /\ reported w' = reported w ++ handedOver r w
    /\ stdLog w' = stdLog w ++ reportLines r w
    /\ sameProcess w w'.
Proof.
  intros Hs Hc Hn. rewrite (after_lookup d s c w Hs Hc).
  unfold storedSpan in Hn. rewrite Hs in Hn. rewrite Hn.
  unfold annotations, handedOver, reportLines, whenSampled.
  destruct (gorm.Error d) as [e|]; cbn; unfold tracer.reportSpan; cbn;
    rewrite !lookup_alter_eq.
  all: destruct (spans w !! r) as [sp|] eqn:Hsp; cbn;
    [destruct (jaeger.sampled (context sp)) eqn:Hsm|].
  all: rewrite ?context_addRecord, ?Hsm.
  all: eexists; (split; [reflexivity|]); cbn.
  all: rewrite ?app_nil_r.
  all: repeat split.
  all: try (intros r' Hr'; rewrite !lookup_alter_ne by done; reflexivity).
  all: rewrite ?lookup_alter_eq, ?Hsp; cbn; try done.
  all: unfold finished, annotated, whenSampled, tracer.reportingLine, tracer.setDuration.
  all: rewrite ?addRecord_unsampled by (rewrite ?context_addRecord; exact Hsm).
  all: rewrite ?addRecord_sampled by (rewrite ?context_addRecord; exact Hsm).
  all: cbn; rewrite ?Hsm; cbn; rewrite ?app_nil_r, <- ?app_assoc; reflexivity.
Qed.

(** What [after] writes on a stored span that is sampled: one log record
    per field list of [annotations]; on one that is not, nothing. *)
Lemma after_annotations d s c r sp w :
  gorm.Statement d = Some s -> gorm.Context s = Some c ->
  storedSpan d = Some (ISpan (JaegerSpan r)) ->
  spans w !! r = Some sp ->
  exists w' sp',
    after (Some d) w = Done (Some d) w'
    /\ spans w' !! r = Some sp'
    /\ context sp' = context sp
    /\ logs sp' = logs sp ++ whenSampled sp (map (mkLogRecord (clock w)) (annotations d s)).
Proof.
  intros Hs Hc Hst Hsp.
  destruct (after_jaeger_span d s c r w Hs Hc Hst) as (w' & Ha & Hr & _).
  rewrite Hsp in Hr. cbn in Hr.
  eexists w', _. split; [exact Ha|]. split; [exact Hr|]. split; reflexivity.
Qed.

Lemma map_Fields_whenSampled sp now (fs : list (list Field)) :
  map Fields (whenSampled sp (map (mkLogRecord now) fs)) = whenSampled sp fs.
Proof.
  unfold whenSampled. destruct (jaeger.sampled (context sp)); [|reflexivity].
  rewrite map_map. cbn. apply map_id.
Qed.

Lemma ownsSpan_inj d r r' : ownsSpan d r -> ownsSpan d r' -> r = r'.
Proof. unfold ownsSpan. intros -> E. now injection E. Qed.

(** Every call of [after] leaves the [DB] as it was, also when it panics;
    it writes only to the span the operation holds, and it allocates and
    frees nothing. *)
Lemma after_cases d w :
  dbOf (after (Some d) w) d = d
  /\ (forall r, ~ ownsSpan d r ->
                spans (worldOf (after (Some d) w)) !! r = spans w !! r)
  /\ (forall r, is_Some (spans (worldOf (after (Some d) w)) !! r)
                <-> is_Some (spans w !! r)).
Proof.
  destruct (gorm.Statement d) as [s|] eqn:Hs.
  2:{ rewrite after_unbound by (unfold unbound; now rewrite Hs).
      repeat split; intros; auto. }
  destruct (gorm.Context s) as [c|] eqn:Hc.
  2:{ rewrite after_unbound by (unfold unbound; now rewrite Hs, Hc).
      repeat split; intros; auto. }
  destruct (storedSpan d) as [[|[r| |]|v]|] eqn:Hst.
  - rewrite (after_no_span d s c w Hs Hc) by (unfold noSpanStored; now rewrite Hst).
    repeat split; intros; auto.
  - destruct (after_jaeger_span d s c r w Hs Hc Hst) as (w' & -> & Hr & Hother & _).
    cbn. split; [reflexivity|]. split.
    + intros r' Hn. apply Hother. intros ->. apply Hn. exact Hst.
    + intros r'. destruct (decide (r' = r)) as [->|Hne].
      * rewrite Hr. rewrite fmap_is_Some. reflexivity.
      * rewrite (Hother r' Hne). reflexivity.
  - rewrite (after_nil_span d s c w Hs Hc Hst). repeat split; intros; auto.
  - rewrite (after_noop_span d s c w Hs Hc Hst). repeat split; intros; auto.
  - rewrite (after_no_span d s c w Hs Hc) by (unfold noSpanStored; now rewrite Hst).
    repeat split; intros; auto.
  - rewrite (after_no_span d s c w Hs Hc) by (unfold noSpanStored; now rewrite Hst).
    repeat split; intros; auto.
Qed.

(** ** The operation between the hooks *)

Lemma unbound_execute x d : unbound d -> unbound (execute x d).
Proof.
  unfold unbound, execute. cbn. destruct (gorm.Statement d); [cbn; auto | auto].
Qed.

Lemma storedSpan_execute x d : storedSpan (execute x d) = storedSpan d.
Proof. unfold storedSpan, execute. cbn. destruct (gorm.Statement d); reflexivity. Qed.

Lemma execute_bound x d s c :
  gorm.Statement d = Some s -> gorm.Context s = Some c ->
  exists s', gorm.Statement (execute x d) = Some s' /\ gorm.Context s' = Some c.
Proof.
  intros Hs Hc. unfold execute. cbn. rewrite Hs. eexists. split; [reflexivity|].
  exact Hc.
Qed.

(** ** The scenarios of the specification *)

(** The first end-to-end scenario of the specification: the carrier holds
    trace [1a2b], span [00ff], sampled; a query on the table [users]. *)
Example scenario_query_with_carrier :
  let sys := run [EvSetH b3Header; EvBefore 0 Query; EvExec 0 selectTwoVars; EvAfter 0]
               (mkSys (demoWorld []) [operationAt 4096]) in
  exists sp,
    spans (world sys) !! 1%positive = Some sp
    /\ reported (world sys) = [1%positive]
    /\ jaeger.traceID (context sp) = jaeger.mkTraceID 0 6699
    /\ jaeger.parentID (context sp) = 255
    /\ operationName sp = "query"
    /\ nth_error (map Fields (logs sp)) 1 = Some [log_String "table" "users"]
    /\ startTime sp <= endTime sp.
Proof.
  eexists. split; [vm_compute; reflexivity|].
  repeat split; vm_compute; (reflexivity || discriminate).
Qed.

(** The second scenario: no carrier, a create that fails with
    [duplicate key].  The span is a root, it carries the error, and the
    [DB] still holds the error. *)
Example scenario_failed_create_without_carrier :
  let sys := run [EvBefore 0 Create; EvExec 0 failedInsert; EvAfter 0]
               (mkSys (demoWorld []) [operationAt 4096]) in
  exists d sp,
    dbs sys !! 0%nat = Some d
    /\ gorm.Error d = Some "duplicate key"
    /\ spans (world sys) !! 1%positive = Some sp
    /\ jaeger.parentID (context sp) = 0
    /\ jaeger.traceID (context sp) = jaeger.mkTraceID 0 42
    /\ nth_error (map Fields (logs sp)) 0 = Some [log_Error "duplicate key"].
Proof.
  eexists _, _. split; [vm_compute; reflexivity|].
  split; [vm_compute; reflexivity|].
  split; [vm_compute; reflexivity|].
  repeat split; vm_compute; reflexivity.
Qed.

(** ** C1: the span continues the inbound trace *)

(** C1.  When the before-hook runs on an available statement while the
    carrier [H] holds a well-formed B3 context (extraction succeeds with a
    valid trace id and span id), the span it stores has the trace id of the
    inbound context, and its parent id is the inbound span id. *)
Theorem before_links_inbound_context d s c op w svc ep inbound :
  gorm.Statement d = Some s -> gorm.Context s = Some c ->
  globalTracer w = JaegerTracer svc ep ->
  zipkin.Extract (H w) = (inbound, None) ->
  jaeger.IsValid inbound = true ->
  exists d' w' r sp,
    _injectBefore (Some d) op w = Done (Some d') w'
    /\ storedSpan d' = Some (ISpan (JaegerSpan r))
    /\ spans w' !! r = Some sp
    /\ operationName sp = op
    /\ jaeger.traceID (context sp) = jaeger.traceID inbound
    /\ jaeger.parentID (context sp) = jaeger.spanID inbound.
Proof.
  intros Hs Hc Ht He Hv.
  eexists _, _, _, _. split; [exact (injectBefore_bound d s c op w svc ep Hs Hc Ht)|].
  split; [apply storedSpan_withStored|].
  split; [apply lookup_insert_eq|].
  split; [reflexivity|].
  unfold beforeSpan. cbn [context].
  assert (startedContext (beforeReferences (H w) c) (Zpos (rng w (drawn w))) =
          tracer.sampleOnCreate
            (jaeger.mkSpanContext (jaeger.traceID inbound) (Zpos (rng w (drawn w)))
               (jaeger.spanID inbound) (jaeger.sampled inbound) (jaeger.final inbound)
               (jaeger.baggage inbound))) as ->.
  { unfold beforeReferences. rewrite He. cbn [fst].
    destruct (gocontext.activeSpan c); now apply startedContext_child. }
  match goal with
  | |- context [tracer.sampleOnCreate ?x] =>
      destruct (sampleOnCreate_ids x) as (-> & _ & -> & _)
  end.
  split; reflexivity.
Qed.

Lemma before_links_inbound_context_witness :
  exists d' w' r sp,
    _injectBefore (Some (demoDB (Some gocontext.Background))) _opQuery
      (demoWorld b3Header) = Done (Some d') w'
    /\ storedSpan d' = Some (ISpan (JaegerSpan r))
    /\ spans w' !! r = Some sp
    /\ operationName sp = _opQuery
    /\ jaeger.traceID (context sp) = jaeger.mkTraceID 0 6699
    /\ jaeger.parentID (context sp) = 255.
Proof.
  apply (before_links_inbound_context (demoDB (Some gocontext.Background))
           (demoStatement (Some gocontext.Background)) gocontext.Background _opQuery
           (demoWorld b3Header) "istiogormtracing-service"
           "http://127.0.0.1:14268/api/traces"
           (jaeger.mkSpanContext (jaeger.mkTraceID 0 6699) 255 0 true false ∅)).
  - reflexivity.
  - reflexivity.
  - reflexivity.
  - vm_compute. reflexivity.
  - vm_compute. reflexivity.
Defined.

(** ** C2: a carrier without a usable context *)

(** C2, as stated, fails: with an empty carrier and a statement context
    that already carries a span, the before-hook stores a child of that
    span, not the root of a fresh trace. *)
Lemma before_absent_carrier_not_root :
  jaeger.IsValid (fst (zipkin.Extract (H (demoWorld [])))) = false
  /\ exists d' w' r sp,
      _injectBefore (Some (demoDB (Some tracedContext))) _opQuery (demoWorld [])
        = Done (Some d') w'
      /\ storedSpan d' = Some (ISpan (JaegerSpan r))
      /\ spans w' !! r = Some sp
      /\ jaeger.traceID (context sp) = jaeger.mkTraceID 0 7
      /\ jaeger.parentID (context sp) = 9
      /\ ~ isFreshRoot (demoWorld []) sp.
Proof.
  split; [vm_compute; reflexivity|].
  eexists _, _, _, _.
  split.
  { apply (injectBefore_bound (demoDB (Some tracedContext))
             (demoStatement (Some tracedContext)) tracedContext _opQuery (demoWorld [])
             "istiogormtracing-service" "http://127.0.0.1:14268/api/traces");
      reflexivity. }
  split; [apply storedSpan_withStored|].
  split; [apply lookup_insert_eq|].
  split; [vm_compute; reflexivity|].
  split; [vm_compute; reflexivity|].
  intros [Hp _]. vm_compute in Hp. discriminate Hp.
Qed.

(** C2, amended.  When the carrier yields no valid context (its B3 fields
    are malformed, incomplete or absent), the before-hook still returns
    normally, leaves the error of the operation as it was, and stores a
    valid span; the span is the root of a fresh trace when the context of
    the statement carries no span of its own. *)
Theorem before_degrades_without_context d s c op w svc ep :
  gorm.Statement d = Some s -> gorm.Context s = Some c ->
  globalTracer w = JaegerTracer svc ep ->
  jaeger.IsValid (fst (zipkin.Extract (H w))) = false ->
  exists d' w' r sp,
    _injectBefore (Some d) op w = Done (Some d') w'
    /\ gorm.Error d' = gorm.Error d
    /\ storedSpan d' = Some (ISpan (JaegerSpan r))
    /\ spans w' !! r = Some sp
    /\ operationName sp = op
    /\ jaeger.IsValid (context sp) = true
    /\ (gocontext.activeSpan c = None -> isFreshRoot w sp).
Proof.
  intros Hs Hc Ht Hv.
  eexists _, _, _, _. split; [exact (injectBefore_bound d s c op w svc ep Hs Hc Ht)|].
  split; [reflexivity|].
  split; [apply storedSpan_withStored|].
  split; [apply lookup_insert_eq|].
  split; [reflexivity|].
  split; [apply startedContext_valid|].
  intros Hn. unfold isFreshRoot, beforeSpan, beforeReferences. rewrite Hn.
  cbn [context].
  destruct (startedContext_root _ (Zpos (rng w (drawn w))) Hv) as (Et & _ & Ep).
  split; assumption.
Qed.

Lemma before_degrades_without_context_witness :
  exists d' w' r sp,
    _injectBefore (Some (demoDB (Some gocontext.Background))) _opCreate
      (demoWorld [("X-B3-Traceid", ["not-hex"])]) = Done (Some d') w'
    /\ gorm.Error d' = None
    /\ storedSpan d' = Some (ISpan (JaegerSpan r))
    /\ spans w' !! r = Some sp
    /\ operationName sp = _opCreate
    /\ jaeger.IsValid (context sp) = true
    /\ (gocontext.activeSpan gocontext.Background = None ->
        isFreshRoot (demoWorld [("X-B3-Traceid", ["not-hex"])]) sp).
Proof.
  apply (before_degrades_without_context (demoDB (Some gocontext.Background))
           (demoStatement (Some gocontext.Background)) gocontext.Background _opCreate
           (demoWorld [("X-B3-Traceid", ["not-hex"])]) "istiogormtracing-service"
           "http://127.0.0.1:14268/api/traces").
  - reflexivity.
  - reflexivity.
  - reflexivity.
  - vm_compute. reflexivity.
Defined.

(** ** C3: a failed operation *)

(** C3, as stated, fails for a span that is not sampled.  The context of
    the statement carries a span that is finally not sampled and the
    carrier is empty, so the span of the operation is a child of that span
    and not sampled either.  The operation fails with [duplicate key];
    [after] gives the error to [LogFields], which keeps nothing: the span
    has no log record when [after] has returned. *)
Lemma after_drops_error_on_unsampled_span :
  exists d1 w1 w2 sp,
    _injectBefore (Some (demoDB (Some unsampledContext))) _opCreate (demoWorld [])
      = Done (Some d1) w1
    /\ storedSpan d1 = Some (ISpan (JaegerSpan 1%positive))
    /\ gorm.Error (execute failedInsert d1) = Some "duplicate key"
    /\ after (Some (execute failedInsert d1)) w1
         = Done (Some (execute failedInsert d1)) w2
    /\ spans w2 !! 1%positive = Some sp
    /\ jaeger.sampled (context sp) = false
    /\ logs sp = [].
Proof.
  eexists _, _, _, _.
  split; [vm_compute; reflexivity|].
  split; [vm_compute; reflexivity|].
  split; [vm_compute; reflexivity|].
  split; [vm_compute; reflexivity|].
  split; [vm_compute; reflexivity|].
  split; vm_compute; reflexivity.
Qed.

(** C3, amended.  When the operation has failed with error [e] and the
    span stored for it is sampled, [after] adds a log record with the error
    to that span and returns the [DB] exactly as it received it.  The
    before-hooks do not touch the error or the result either, so the caller
    sees the outcome of the operation as gorm set it.  The span a
    before-hook starts is sampled unless the context of the statement
    carries a span that is finally not sampled. *)
Theorem after_records_error_keeps_outcome d s c e r sp w :
  gorm.Statement d = Some s -> gorm.Context s = Some c ->
  gorm.Error d = Some e ->
  storedSpan d = Some (ISpan (JaegerSpan r)) ->
  spans w !! r = Some sp ->
  jaeger.sampled (context sp) = true ->
  (exists w' sp' rec rest,
      after (Some d) w = Done (Some d) w'
      /\ spans w' !! r = Some sp'
      /\ logs sp' = logs sp ++ rec :: rest
      /\ Fields rec = [log_Error e])
  /\ (forall d0 op w0, exists d1 w1,
        _injectBefore (Some d0) op w0 = Done (Some d1) w1
        /\ gorm.Error d1 = gorm.Error d0
        /\ gorm.RowsAffected d1 = gorm.RowsAffected d0)
  /\ (forall h c0 id,
        (forall p, gocontext.activeSpan c0 = Some p ->
                   jaeger.final p = true -> jaeger.sampled p = true) ->
        jaeger.sampled (startedContext (beforeReferences h c0) id) = true).
Proof.
  intros Hs Hc He Hst Hsp Hsm. split; [|split].
  - destruct (after_annotations d s c r sp w Hs Hc Hst Hsp) as (w' & sp' & Ha & Hr & _ & Hl).
    exists w', sp'. eexists _, _. split; [exact Ha|]. split; [exact Hr|].
    rewrite Hl. unfold whenSampled, annotations. rewrite Hsm, He. cbn.
    split; reflexivity.
  - intros d0 op w0.
    destruct (injectBefore_cases d0 op w0) as (d1 & w1 & Hb & [E1 E2] & _).
    exists d1, w1. auto.
  - intros h c0 id Hp. apply before_span_sampled, Hp.
Qed.

Lemma after_records_error_keeps_outcome_witness :
  (exists w' sp' rec rest,
      after (Some (execute failedInsert boundDB)) (set_clock 1005 boundWorld)
        = Done (Some (execute failedInsert boundDB)) w'
      /\ spans w' !! 1%positive = Some sp'
      /\ logs sp' =
           logs (beforeSpan _opQuery gocontext.Background (demoWorld b3Header))
           ++ rec :: rest
      /\ Fields rec = [log_Error "duplicate key"])
  /\ (forall d0 op w0, exists d1 w1,
        _injectBefore (Some d0) op w0 = Done (Some d1) w1
        /\ gorm.Error d1 = gorm.Error d0
        /\ gorm.RowsAffected d1 = gorm.RowsAffected d0)
  /\ (forall h c0 id,
        (forall p, gocontext.activeSpan c0 = Some p ->
                   jaeger.final p = true -> jaeger.sampled p = true) ->
        jaeger.sampled (startedContext (beforeReferences h c0) id) = true).
Proof.
  eapply (after_records_error_keeps_outcome (execute failedInsert boundDB)
            _ gocontext.Background "duplicate key" 1%positive
            (beforeSpan _opQuery gocontext.Background (demoWorld b3Header))
            (set_clock 1005 boundWorld)).
  - reflexivity.
  - reflexivity.
  - reflexivity.
  - vm_compute. reflexivity.
  - vm_compute. reflexivity.
  - vm_compute. reflexivity.
Defined.

(** ** C4: one before, one after *)

(** C4.  A before-hook that starts a span stores a new span [r] (one that
    did not exist before).  Once the operation has run, whatever else
    happened in the process as long as nothing touched [r], the [after] of
    that operation finishes exactly [r], with one call of [Finish] (if [r]
    had not been finished before, it has been exactly once now), and the
    span ends at the time of [after], not before its start.  The reporter
    is given the span once if it is sampled, and not at all if it is
    not. *)
Theorem before_then_after_finishes_once d s c op w svc ep x :
  gorm.Statement d = Some s -> gorm.Context s = Some c ->
  globalTracer w = JaegerTracer svc ep ->
  exists d1 w1 r,
    _injectBefore (Some d) op w = Done (Some d1) w1
    /\ spans w !! r = None
    /\ storedSpan d1 = Some (ISpan (JaegerSpan r))
    /\ forall w2,
         spans w2 !! r = spans w1 !! r -> clock w <= clock w2 ->
         exists w3 sp,
           after (Some (execute x d1)) w2 = Done (Some (execute x d1)) w3
           /\ finishCalls w3 = finishCalls w2 ++ [r]
           /\ (~ In r (finishCalls w2) ->
               count_occ Pos.eq_dec (finishCalls w3) r = 1%nat)
           /\ reported w3 = reported w2 ++ whenSampled sp [r]
           /\ spans w3 !! r = Some sp
           /\ startTime sp = clock w
           /\ endTime sp = clock w2
           /\ startTime sp <= endTime sp.
Proof.
  intros Hs Hc Ht.
  eexists _, _, _. split; [exact (injectBefore_bound d s c op w svc ep Hs Hc Ht)|].
  split; [apply fresh_span_unused|].
  split; [apply storedSpan_withStored|].
  intros w2 Hsame Hclock.
  set (d1 := withStored _ d s) in *.
  destruct (execute_bound x d1 _ c eq_refl Hc) as (s' & Hs' & Hc').
  destruct (after_jaeger_span (execute x d1) s' c (fresh (dom (spans w))) w2 Hs' Hc')
    as (w3 & Ha & Hr & _ & Hfin & Hrep & _).
  { rewrite storedSpan_execute. apply storedSpan_withStored. }
  unfold handedOver in Hrep.
  rewrite Hsame in Hr, Hrep. unfold beforeWorld in Hr, Hrep. cbn in Hr, Hrep.
  rewrite lookup_insert_eq in Hr, Hrep. cbn in Hr.
  eexists w3, _. split; [exact Ha|]. split; [exact Hfin|].
  split.
  { intros Hnot. rewrite Hfin, count_occ_app.
    pose proof (proj1 (count_occ_not_In Pos.eq_dec _ _) Hnot) as Hzero.
    unfold SpanRef in *. rewrite Hzero.
    cbn [count_occ]. destruct (Pos.eq_dec _ _); [reflexivity|congruence]. }
  split; [|split; [exact Hr|]].
  - exact Hrep.
  - unfold endTime. cbn. repeat split; lia.
Qed.

Lemma before_then_after_finishes_once_witness :
  exists d1 w1 r,
    _injectBefore (Some (demoDB (Some gocontext.Background))) _opCreate
      (demoWorld b3Header) = Done (Some d1) w1
    /\ spans (demoWorld b3Header) !! r = None
    /\ storedSpan d1 = Some (ISpan (JaegerSpan r))
    /\ forall w2,
         spans w2 !! r = spans w1 !! r -> clock (demoWorld b3Header) <= clock w2 ->
         exists w3 sp,
           after (Some (execute failedInsert d1)) w2
             = Done (Some (execute failedInsert d1)) w3
           /\ finishCalls w3 = finishCalls w2 ++ [r]
           /\ (~ In r (finishCalls w2) ->
               count_occ Pos.eq_dec (finishCalls w3) r = 1%nat)
           /\ reported w3 = reported w2 ++ whenSampled sp [r]
           /\ spans w3 !! r = Some sp
           /\ startTime sp = clock (demoWorld b3Header)
           /\ endTime sp = clock w2
           /\ startTime sp <= endTime sp.
Proof.
  apply (before_then_after_finishes_once (demoDB (Some gocontext.Background))
           (demoStatement (Some gocontext.Background)) gocontext.Background _opCreate
           (demoWorld b3Header) "istiogormtracing-service"
           "http://127.0.0.1:14268/api/traces" failedInsert);
    reflexivity.
Defined.

(** ** C5: the statement or its context is missing *)

(** C5, as stated, fails: after a before-hook that found no statement,
    [after] is not without effect, it gives the diagnostic to the logger
    once more. *)
Lemma after_unbound_not_noop :
  unbound noStatementDB
  /\ after (Some noStatementDB) (demoWorld []) <> Done (Some noStatementDB) (demoWorld [])
  /\ exists w', after (Some noStatementDB) (demoWorld []) = Done (Some noStatementDB) w'
                /\ dbLog (demoWorld []) = []
                /\ dbLog w' = [msgNoStatement].
Proof.
  split; [exact I|].
  rewrite (after_unbound noStatementDB (demoWorld []) I).
  split.
  - intros E. injection E as E. discriminate E.
  - eexists. repeat split.
Qed.

(** C5, amended.  For each of the six operation kinds, when the statement
    or its context is missing, the before-hook gives one diagnostic to the
    logger and changes nothing else (no span is created or stored); the
    [after] that follows the operation gives the same diagnostic once more
    and changes nothing else (no span is annotated or finished). *)
Theorem unbound_hooks_only_log (k : OpKind) d w :
  unbound d ->
  beforeHook k (Some d) w =
    Done (Some d) (set_dbLog (dbLog w ++ [msgNoStatement]) w)
  /\ forall x w',
       after (Some (execute x d)) w' =
         Done (Some (execute x d)) (set_dbLog (dbLog w' ++ [msgNoStatement]) w').
Proof.
  intros U. split.
  - destruct k; apply injectBefore_unbound, U.
  - intros x w'. apply after_unbound, unbound_execute, U.
Qed.

Lemma unbound_hooks_only_log_witness :
  beforeHook Delete (Some (demoDB None)) (demoWorld b3Header) =
    Done (Some (demoDB None))
      (set_dbLog (dbLog (demoWorld b3Header) ++ [msgNoStatement]) (demoWorld b3Header))
  /\ forall x w',
       after (Some (execute x (demoDB None))) w' =
         Done (Some (execute x (demoDB None)))
           (set_dbLog (dbLog w' ++ [msgNoStatement]) w').
Proof.
  apply (unbound_hooks_only_log Delete (demoDB None) (demoWorld b3Header)).
  reflexivity.
Defined.

(** ** C6: no span under the key *)

(** C6, as stated, fails: nothing is stored under the span key, but the
    context of the statement is missing, and [after] is not without
    effect: it gives the diagnostic to the logger. *)
Lemma after_without_context_not_noop :
  storedSpan (demoDB None) = None
  /\ noSpanStored (demoDB None)
  /\ after (Some (demoDB None)) (demoWorld []) <> Done (Some (demoDB None)) (demoWorld [])
  /\ exists w', after (Some (demoDB None)) (demoWorld []) = Done (Some (demoDB None)) w'
                /\ dbLog (demoWorld []) = []
                /\ dbLog w' = [msgNoStatement].
Proof.
  split; [reflexivity|]. split; [exact I|].
  rewrite (after_unbound (demoDB None) (demoWorld []) eq_refl).
  split.
  - intros E. injection E as E. discriminate E.
  - eexists. repeat split.
Qed.

(** C6, amended.  When [after] reaches the instance store (the statement
    and its context are there) and what is stored under the span key is
    absent, the nil interface, or a value that is not a span, it returns
    without any effect: the [DB] and the process are as before, and
    nothing panics.  The three cases end in the same way. *)
Theorem after_without_span_is_noop d s c w :
  gorm.Statement d = Some s -> gorm.Context s = Some c ->
  noSpanStored d ->
  after (Some d) w = Done (Some d) w.
Proof. apply after_no_span. Qed.

Lemma after_without_span_is_noop_witness :
  after (Some foreignDB) (demoWorld b3Header) = Done (Some foreignDB) (demoWorld b3Header).
Proof.
  eapply (after_without_span_is_noop foreignDB _ gocontext.Background).
  - reflexivity.
  - reflexivity.
  - vm_compute. exact I.
Defined.

(** ** C7: the annotations *)

(** C7 at a statement with two bound values.  The span gets the rendered
    statement, the table and the statement text; under the key "bindings"
    it gets the statement text once more, and the bound values
    ['xiaoming'] and [18] are in no field of their own. *)
Theorem after_logs_statement_text_as_bindings :
  exists w' sp,
    after (Some (execute selectTwoVars boundDB)) (set_clock 1005 boundWorld)
      = Done (Some (execute selectTwoVars boundDB)) w'
    /\ spans w' !! 1%positive = Some sp
    /\ map Fields (logs sp) =
         [ [log_String "sql"
              "SELECT * FROM users WHERE name = ? AND age > ? -- 'xiaoming', 0x12"];
           [log_String "table" "users"];
           [log_String "query" "SELECT * FROM users WHERE name = ? AND age > ?"];
           [log_String "bindings" "SELECT * FROM users WHERE name = ? AND age > ?"] ].
Proof.
  destruct (after_annotations (execute selectTwoVars boundDB) _ gocontext.Background
              1%positive (beforeSpan _opQuery gocontext.Background (demoWorld b3Header))
              (set_clock 1005 boundWorld) eq_refl eq_refl)
    as (w' & sp' & Ha & Hsp & _ & Hl).
  - vm_compute. reflexivity.
  - vm_compute. reflexivity.
  - exists w', sp'. split; [exact Ha|]. split; [exact Hsp|].
    rewrite Hl. vm_compute. reflexivity.
Qed.

(** ** C8: start-up *)

(** C8.  When the tracer cannot be built, [NewDefault] writes the failure
    to the log and ends the process with status 1: it does not return and
    no global tracer is installed. *)
Theorem NewDefault_aborts_on_tracer_failure
    (NewTracer : Configuration -> Tracer + error) svcName collectorEndpoint err w :
  NewTracer (mkConfiguration SamplerTypeConst 1 svcName true collectorEndpoint)
    = inr err ->
  NewDefault NewTracer svcName collectorEndpoint w =
    Exit 1 (set_stdLog
              (stdLog w ++ ["jaeger tracer 插件初始化失败, 错误原因: " +:+ err]) w).
Proof.
  intros E. unfold NewDefault, bootTracerBasedJaeger. cbn.
  rewrite E. reflexivity.
Qed.

Lemma NewDefault_aborts_on_tracer_failure_witness :
  NewDefault demoNewTracer EmptyString "http://127.0.0.1:14268/api/traces"
    (set_globalTracer NoopTracer (demoWorld [])) =
    Exit 1 (set_stdLog
              (stdLog (set_globalTracer NoopTracer (demoWorld [])) ++
               ["jaeger tracer 插件初始化失败, 错误原因: " +:+ "no service name provided"])
              (set_globalTracer NoopTracer (demoWorld []))).
Proof.
  apply (NewDefault_aborts_on_tracer_failure demoNewTracer EmptyString
           "http://127.0.0.1:14268/api/traces" "no service name provided").
  reflexivity.
Defined.

(** ** C9: interleaved operations *)

Lemma step_isolated ev sys : isolated sys -> isolated (step ev sys).
Proof.
  intros [Hlive Huniq]. destruct ev as [h|i k|i x|i]; cbn.
  - split; [exact Hlive|exact Huniq].
  - unfold runHook. destruct (dbs sys !! i) as [d|] eqn:Hd; [|split; assumption].
    rewrite beforeHook_injectBefore.
    destruct (injectBefore_cases d (opName k) (world sys)) as (d' & w' & -> & _ & Hcase).
    cbn. assert (Hi : (i < length (dbs sys))%nat) by (eapply lookup_lt_Some; eauto).
    unfold isolated. cbn [world dbs].
    destruct Hcase as [[-> Hsp]|[[Hst Hsp]|(sp & Hst & Hsp)]].
    + rewrite list_insert_id by exact Hd. rewrite Hsp. split; assumption.
    + rewrite Hsp. split.
      * intros j dj r Hj Ho. destruct (decide (i = j)) as [<-|Hne].
        -- rewrite list_lookup_insert_eq in Hj by exact Hi. injection Hj as <-.
           unfold ownsSpan in Ho. rewrite Hst in Ho. discriminate Ho.
        -- rewrite list_lookup_insert_ne in Hj by exact Hne. eauto.
      * intros j1 j2 d1 d2 r H1 H2 O1 O2.
        destruct (decide (i = j1)) as [<-|N1].
        { rewrite list_lookup_insert_eq in H1 by exact Hi. injection H1 as <-.
          unfold ownsSpan in O1. rewrite Hst in O1. discriminate O1. }
        destruct (decide (i = j2)) as [<-|N2].
        { rewrite list_lookup_insert_eq in H2 by exact Hi. injection H2 as <-.
          unfold ownsSpan in O2. rewrite Hst in O2. discriminate O2. }
        rewrite list_lookup_insert_ne in H1 by exact N1.
        rewrite list_lookup_insert_ne in H2 by exact N2. eauto.
    + rewrite Hsp. pose proof (fresh_span_unused (world sys)) as Hfresh.
      assert (Hold : forall j dj r, dbs sys !! j = Some dj -> ownsSpan dj r ->
                                    r <> fresh (dom (spans (world sys)))).
      { intros j dj r Hj Ho ->. destruct (Hlive j dj _ Hj Ho) as [? E].
        rewrite Hfresh in E. discriminate E. }
      split.
      * intros j dj r Hj Ho. destruct (decide (i = j)) as [<-|Hne].
        -- rewrite list_lookup_insert_eq in Hj by exact Hi. injection Hj as <-.
           rewrite (ownsSpan_inj _ _ _ Ho Hst), lookup_insert_eq. eauto.
        -- rewrite list_lookup_insert_ne in Hj by exact Hne.
           rewrite lookup_insert_ne by (apply not_eq_sym; eauto). eauto.
      * intros j1 j2 d1 d2 r H1 H2 O1 O2.
        destruct (decide (i = j1)) as [<-|N1]; destruct (decide (i = j2)) as [E2|N2];
          try congruence.
        -- rewrite list_lookup_insert_eq in H1 by exact Hi. injection H1 as <-.
           rewrite list_lookup_insert_ne in H2 by exact N2.
           exfalso. apply (Hold j2 d2 r H2 O2). apply (ownsSpan_inj _ _ _ O1 Hst).
        -- subst j2. rewrite list_lookup_insert_eq in H2 by exact Hi. injection H2 as <-.
           rewrite list_lookup_insert_ne in H1 by exact N1.
           exfalso. apply (Hold j1 d1 r H1 O1). apply (ownsSpan_inj _ _ _ O2 Hst).
        -- rewrite list_lookup_insert_ne in H1 by exact N1.
           rewrite list_lookup_insert_ne in H2 by exact N2. eauto.
  - destruct (dbs sys !! i) as [d|] eqn:Hd; [|split; assumption].
    unfold isolated. cbn [world dbs].
    assert (Hi : (i < length (dbs sys))%nat) by (eapply lookup_lt_Some; eauto).
    assert (Hown : forall j dj r, <[i:=execute x d]> (dbs sys) !! j = Some dj ->
                     ownsSpan dj r ->
                     exists dj', dbs sys !! j = Some dj' /\ ownsSpan dj' r).
    { intros j dj r Hj Ho. destruct (decide (i = j)) as [<-|Hne].
      - rewrite list_lookup_insert_eq in Hj by exact Hi. injection Hj as <-.
        exists d. split; [exact Hd|]. unfold ownsSpan in *.
        now rewrite storedSpan_execute in Ho.
      - rewrite list_lookup_insert_ne in Hj by exact Hne. eauto. }
    split.
    + intros j dj r Hj Ho. destruct (Hown j dj r Hj Ho) as (dj' & Hj' & Ho'). eauto.
    + intros j1 j2 d1 d2 r H1 H2 O1 O2.
      destruct (Hown j1 d1 r H1 O1) as (d1' & H1' & O1').
      destruct (Hown j2 d2 r H2 O2) as (d2' & H2' & O2'). eauto.
  - unfold runHook. destruct (dbs sys !! i) as [d|] eqn:Hd; [|split; assumption].
    destruct (after_cases d (world sys)) as (Hdb & _ & Hdom).
    unfold isolated. cbn [world dbs].
    rewrite Hdb, list_insert_id by exact Hd. split.
    + intros j dj r Hj Ho. apply Hdom. eauto.
    + exact Huniq.
Qed.

(** An event of another operation leaves the [DB] of operation [i] and the
    span it holds as they are. *)
Lemma step_frame ev sys i d :
  isolated sys -> dbs sys !! i = Some d -> target ev <> Some i ->
  dbs (step ev sys) !! i = Some d
  /\ forall r, ownsSpan d r ->
               spans (world (step ev sys)) !! r = spans (world sys) !! r.
Proof.
  intros [Hlive Huniq] Hd Ht. destruct ev as [h|j k|j x|j]; cbn in *.
  - split; [exact Hd|reflexivity].
  - assert (Hne : j <> i) by congruence.
    unfold runHook. destruct (dbs sys !! j) as [dj|] eqn:Hj; [|split; auto].
    rewrite beforeHook_injectBefore.
    destruct (injectBefore_cases dj (opName k) (world sys)) as (d' & w' & -> & _ & Hcase).
    cbn. rewrite list_lookup_insert_ne by exact Hne. split; [exact Hd|].
    intros r Ho. destruct Hcase as [[_ ->]|[[_ ->]|(sp & _ & ->)]]; try reflexivity.
    apply lookup_insert_ne. intros E.
    destruct (Hlive i d r Hd Ho) as [? Hr]. rewrite <- E in Hr.
    rewrite fresh_span_unused in Hr. discriminate Hr.
  - assert (Hne : j <> i) by congruence.
    destruct (dbs sys !! j) as [dj|] eqn:Hj; [|split; auto].
    cbn. rewrite list_lookup_insert_ne by exact Hne. split; [exact Hd|reflexivity].
  - assert (Hne : j <> i) by congruence.
    unfold runHook. destruct (dbs sys !! j) as [dj|] eqn:Hj; [|split; auto].
    destruct (after_cases dj (world sys)) as (_ & Hother & _). cbn [world dbs].
    rewrite list_lookup_insert_ne by exact Hne. split; [exact Hd|].
    intros r Ho. apply Hother. intros Hoj. apply Hne.
    exact (Huniq j i dj d r Hj Hd Hoj Ho).
Qed.

Lemma run_cons ev sched sys : run (ev :: sched) sys = run sched (step ev sys).
Proof. reflexivity. Qed.

Lemma run_isolated sched sys : isolated sys -> isolated (run sched sys).
Proof.
  revert sys. induction sched as [|ev sched IH]; intros sys Hiso.
  - exact Hiso.
  - rewrite run_cons. apply IH, step_isolated, Hiso.
Qed.

Lemma targets_false i ev : negb (targets i ev) = true -> target ev <> Some i.
Proof.
  unfold targets. intros Hn E. rewrite E, Nat.eqb_refl in Hn. discriminate Hn.
Qed.

Lemma run_frame sched sys i d :
  isolated sys -> dbs sys !! i = Some d -> othersOnly i sched = true ->
  dbs (run sched sys) !! i = Some d
  /\ forall r, ownsSpan d r ->
               spans (world (run sched sys)) !! r = spans (world sys) !! r.
Proof.
  revert sys. induction sched as [|ev sched IH]; intros sys Hiso Hd Ho.
  - split; [exact Hd|reflexivity].
  - rewrite run_cons. cbn in Ho. apply andb_true_iff in Ho as [Hev Hrest].
    apply targets_false in Hev.
    destruct (step_frame ev sys i d Hiso Hd Hev) as [Hd' Hsp'].
    destruct (IH (step ev sys) (step_isolated ev sys Hiso) Hd' Hrest) as [Hd'' Hsp''].
    split; [exact Hd''|]. intros r Hr. rewrite (Hsp'' r Hr). apply Hsp', Hr.
Qed.

Lemma nothingStored_isolated w ds :
  nothingStored ds = true -> isolated (mkSys w ds).
Proof.
  intros Hn. unfold nothingStored in Hn. rewrite forallb_forall in Hn.
  assert (Hno : forall i d r, ds !! i = Some d -> ~ ownsSpan d r).
  { intros i d r Hi Ho. apply list_elem_of_lookup_2, list_elem_of_In in Hi.
    specialize (Hn d Hi). unfold ownsSpan in Ho. rewrite Ho in Hn. discriminate Hn. }
  split; cbn.
  - intros i d r Hi Ho. destruct (Hno i d r Hi Ho).
  - intros i j di dj r Hi _ Ho. destruct (Hno i di r Hi Ho).
Qed.

(** C9, as stated, fails on the parent linkage.  A hundred requests, each
    with a trace of its own and an operation of its own; every handler
    assigns [H] before the operations reach their before-hooks.  The span
    of every operation is then linked to the trace of the request that
    assigned [H] last, request 99 with trace id 100: ninety-nine spans
    belong to the trace of another request. *)
Lemma interleaved_requests_cross_link :
  length (dbs hundredRequests) = 100%nat
  /\ map (fun n => jaeger.traceID (fst (zipkin.Extract (requestHeader n)))) (seq 0 100)
     = map (fun n => jaeger.mkTraceID 0 (Z.of_nat n + 1)) (seq 0 100)
  /\ map (linkedTrace (run crossedSchedule hundredRequests)) (seq 0 100)
     = repeat (Some (jaeger.mkTraceID 0 100)) 100.
Proof.
  split; [reflexivity|].
  split; vm_compute; reflexivity.
Qed.

(** C9, amended.  Start with any number of operations, none with a span
    yet, and let any interleaving [pre] of assignments to [H], before-hooks,
    executions and after-hooks run.  Then, whatever the other operations
    and the request handlers do next ([sched]):
    - the [DB] of operation [i] and the span it holds stay as they are;
    - the annotations its [after] then writes are those of its own error,
      statement and table, all of them if its span is sampled and none if
      it is not;
    - the linkage its before-hook then gives a new span is computed from
      the carrier [H] as it stands at that moment, whichever request
      assigned it last. *)
Theorem interleaved_operations_keep_their_spans sys0 pre sched i d :
  nothingStored (dbs sys0) = true ->
  dbs (run pre sys0) !! i = Some d ->
  othersOnly i sched = true ->
  let sys := run pre sys0 in
  let sys' := run sched sys in
  dbs sys' !! i = Some d
  /\ (forall r, ownsSpan d r ->
                spans (world sys') !! r = spans (world sys) !! r)
  /\ (forall s c r sp,
        gorm.Statement d = Some s -> gorm.Context s = Some c ->
        ownsSpan d r -> spans (world sys') !! r = Some sp ->
        exists sp',
          dbs (step (EvAfter i) sys') !! i = Some d
          /\ spans (world (step (EvAfter i) sys')) !! r = Some sp'
          /\ context sp' = context sp
          /\ map Fields (logs sp') =
               map Fields (logs sp) ++ whenSampled sp (annotations d s))
  /\ (forall k s c svc ep,
        gorm.Statement d = Some s -> gorm.Context s = Some c ->
        globalTracer (world sys') = JaegerTracer svc ep ->
        exists d' r sp,
          dbs (step (EvBefore i k) sys') !! i = Some d'
          /\ ownsSpan d' r
          /\ spans (world (step (EvBefore i k) sys')) !! r = Some sp
          /\ context sp =
               startedContext (beforeReferences (H (world sys')) c)
                 (Zpos (rng (world sys') (drawn (world sys'))))).
Proof.
  intros Hn Hd Ho sys sys'.
  assert (Hiso : isolated sys).
  { apply run_isolated. destruct sys0 as [w0 ds0]. apply nothingStored_isolated, Hn. }
  destruct (run_frame sched sys i d Hiso Hd Ho) as [Hd' Hfr].
  fold sys' in Hd', Hfr.
  assert (Hi : (i < length (dbs sys'))%nat) by (eapply lookup_lt_Some; eauto).
  split; [exact Hd'|]. split; [exact Hfr|]. split.
  - intros s c r sp Hs Hc Hown Hsp.
    destruct (after_annotations d s c r sp (world sys') Hs Hc Hown Hsp)
      as (w' & sp' & Ha & Hsp' & Hctx & Hl).
    exists sp'. cbn. unfold runHook. rewrite Hd', Ha. cbn.
    rewrite list_lookup_insert_eq by exact Hi.
    split; [reflexivity|]. split; [exact Hsp'|]. split; [exact Hctx|].
    rewrite Hl, map_app. f_equal. apply map_Fields_whenSampled.
  - intros k s c svc ep Hs Hc Ht.
    eexists _, _, _. cbn. unfold runHook. rewrite Hd', beforeHook_injectBefore.
    rewrite (injectBefore_bound d s c (opName k) (world sys') svc ep Hs Hc Ht). cbn.
    split; [apply list_lookup_insert_eq, Hi|].
    split; [apply storedSpan_withStored|].
    split; [apply lookup_insert_eq|]. reflexivity.
Qed.

Lemma interleaved_operations_keep_their_spans_witness :
  dbs (run othersRun (run sevenRuns hundredOperations)) !! 7%nat = Some sevenDB
  /\ spans (world (run othersRun (run sevenRuns hundredOperations))) !! 1%positive
     = spans (world (run sevenRuns hundredOperations)) !! 1%positive.
Proof.
  destruct (interleaved_operations_keep_their_spans hundredOperations sevenRuns
              othersRun 7%nat sevenDB) as (H1 & H2 & _).
  - vm_compute. reflexivity.
  - vm_compute. reflexivity.
  - vm_compute. reflexivity.
  - split; [exact H1|]. apply H2. vm_compute. reflexivity.
Defined.

(** ** C10: the nil handle *)

(** C10.  On a nil [*gorm.DB] every before-hook and [after] return at once:
    the process state is unchanged (no span, no log line, no annotation)
    and nothing panics. *)
Theorem nil_db_hooks_return_immediately (op : string) (k : OpKind) (w : World) :
  _injectBefore None op w = Done None w
  /\ beforeHook k None w = Done None w
  /\ after None w = Done None w.
Proof. destruct k; repeat split. Qed.

(* ===================================================================== *)
(** * Further properties of the plugin *)
(* ===================================================================== *)

(** ** [Initialize] *)

Lemma firstError_None es : firstError es = None <-> Forall (fun e => e = None) es.
Proof.
  induction es as [|[e|] es IH]; cbn.
  - split; [constructor|reflexivity].
  - split; [discriminate|]. intros F. apply Forall_cons in F as [E _]. discriminate E.
  - rewrite IH. split; [intros F; constructor; [reflexivity|exact F]|].
    intros F. apply Forall_cons in F as [_ F]. exact F.
Qed.

Lemma firstError_Some es e :
  firstError es = Some e ->
  exists n, es !! n = Some (Some e) /\ forall m, (m < n)%nat -> es !! m = Some None.
Proof.
  induction es as [|[e'|] es IH]; cbn.
  - discriminate.
  - intros E. injection E as ->. exists 0%nat. split; [reflexivity|]. intros m Hm. lia.
  - intros E. destruct (IH E) as (n & Hn & Hlt). exists (S n). split; [exact Hn|].
    intros [|m] Hm; [reflexivity|]. cbn. apply Hlt. lia.
Qed.

Lemma Initialize_unfold compile p cbs :
  Initialize compile p cbs =
    (firstError (map (registrationError compile cbs) (seq 0 12)), cbs ++ registered).
Proof.
  unfold Initialize, callbacks.Register, registrationError, registered.
  cbn [map seq lookup list_lookup take callbacks.processor].
  rewrite <- !app_assoc. cbn [app]. reflexivity.
Qed.

Lemma registrationErrors_lookup compile cbs n :
  (n < 12)%nat ->
  map (registrationError compile cbs) (seq 0 12) !! n
    = Some (registrationError compile cbs n).
Proof.
  intros Hn. rewrite list_lookup_fmap, lookup_seq_lt by exact Hn. reflexivity.
Qed.

(** X1.  [Initialize] makes all twelve registrations, in the order of the
    source, whatever errors they give: the callbacks afterwards are the
    earlier ones followed by the twelve.  It returns [nil] exactly when no
    registration failed, and otherwise the error of the first registration
    that failed. *)
Theorem Initialize_registers_all_returns_first_error compile p cbs :
  snd (Initialize compile p cbs) = cbs ++ registered
  /\ (fst (Initialize compile p cbs) = None <->
      forall n, (n < 12)%nat -> registrationError compile cbs n = None)
  /\ (forall e, fst (Initialize compile p cbs) = Some e ->
      exists n, (n < 12)%nat
                /\ registrationError compile cbs n = Some e
                /\ forall m, (m < n)%nat -> registrationError compile cbs m = None).
Proof.
  rewrite Initialize_unfold. cbn [fst snd]. split; [reflexivity|]. split.
  - rewrite firstError_None, Forall_lookup. split.
    + intros F n Hn. apply (F n). apply registrationErrors_lookup, Hn.
    + intros F n e Hl.
      assert (Hn : (n < 12)%nat).
      { apply lookup_lt_Some in Hl. rewrite length_map, length_seq in Hl. exact Hl. }
      rewrite registrationErrors_lookup in Hl by exact Hn.
      injection Hl as <-. apply F, Hn.
  - intros e E. destruct (firstError_Some _ _ E) as (n & Hl & Hlt).
    assert (Hn : (n < 12)%nat).
    { apply lookup_lt_Some in Hl. rewrite length_map, length_seq in Hl. exact Hl. }
    exists n. split; [exact Hn|]. split.
    + rewrite registrationErrors_lookup in Hl by exact Hn. now injection Hl.
    + intros m Hm. specialize (Hlt m Hm).
      rewrite registrationErrors_lookup in Hlt by lia. now injection Hlt.
Qed.

Lemma ofProcessor_app k l1 l2 :
  callbacks.ofProcessor k (l1 ++ l2)
    = callbacks.ofProcessor k l1 ++ callbacks.ofProcessor k l2.
Proof. unfold callbacks.ofProcessor. apply List.filter_app. Qed.

(** X2.  On the processor of every kind, [Initialize] adds two callbacks
    behind those already there: the before-hook of that kind, placed before
    gorm's own callback [gorm:<kind>], then the shared [after], placed
    after it; their names carry the kind.  The twelve names are pairwise
    different. *)
Theorem Initialize_pairs_each_processor compile p cbs (k : OpKind) :
  callbacks.ofProcessor k (snd (Initialize compile p cbs)) =
    callbacks.ofProcessor k cbs ++
    [ callbacks.mkCallback k (callbacks.Before ("gorm:" +:+ opName k))
        ("istio-gorm-tracing-event:before_" +:+ opName k) (beforeHook k);
      callbacks.mkCallback k (callbacks.After ("gorm:" +:+ opName k))
        ("istio-gorm-tracing-event:after_" +:+ opName k) after ]
  /\ NoDup (map callbacks.name registered).
Proof.
  split.
  - rewrite Initialize_unfold. cbn [snd]. rewrite ofProcessor_app.
    f_equal. destruct k; reflexivity.
  - apply (bool_decide_unpack (NoDup (map callbacks.name registered))).
    vm_compute. exact I.
Qed.

(** ** Start-up and the hooks *)

(** X3.  When the tracer can be built, [NewDefault] returns the plugin with
    the two names it was given and installs the tracer, whatever tracer was
    installed before.  On the way the tracer library writes its start-up
    lines through the log package, the line of the logging reporter among
    them; nothing else in the process changes.  A before-hook that runs
    afterwards on an available statement starts a span of that tracer and
    stores it. *)
Theorem NewDefault_then_before_starts_span
    (NewTracer : Configuration -> Tracer + error) svcName collectorEndpoint
    svc ep d s c op w :
  NewTracer (mkConfiguration SamplerTypeConst 1 svcName true collectorEndpoint)
    = inl (JaegerTracer svc ep) ->
  gorm.Statement d = Some s -> gorm.Context s = Some c ->
  exists p w1 lines d' w2 r,
    NewDefault NewTracer svcName collectorEndpoint w = Done p w1
    /\ ServiceName p = svcName /\ CollectorEndpoint p = collectorEndpoint
    /\ w1 = set_globalTracer (JaegerTracer svc ep) (set_stdLog (stdLog w ++ lines) w)
    /\ In msgLoggingReporter lines
    /\ _injectBefore (Some d) op w1 = Done (Some d') w2
    /\ storedSpan d' = Some (ISpan (JaegerSpan r))
    /\ is_Some (spans w2 !! r).
Proof.
  intros E Hs Hc.
  eexists _, _, _, _, _, _. split.
  { unfold NewDefault, bootTracerBasedJaeger. cbn. rewrite E. reflexivity. }
  split; [reflexivity|]. split; [reflexivity|]. split; [reflexivity|].
  split; [cbn; auto|].
  split.
  { apply (injectBefore_bound d s c op _ svc ep Hs Hc). reflexivity. }
  split; [apply storedSpan_withStored|].
  unfold beforeWorld. cbn. rewrite lookup_insert_eq. eauto.
Qed.

Lemma NewDefault_then_before_starts_span_witness :
  exists p w1 lines d' w2 r,
    NewDefault demoNewTracer "istiogormtracing-service"
      "http://127.0.0.1:14268/api/traces"
      (set_globalTracer NoopTracer (demoWorld b3Header)) = Done p w1
    /\ ServiceName p = "istiogormtracing-service"
    /\ CollectorEndpoint p = "http://127.0.0.1:14268/api/traces"
    /\ w1 = set_globalTracer
              (JaegerTracer "istiogormtracing-service"
                 "http://127.0.0.1:14268/api/traces")
              (set_stdLog
                 (stdLog (set_globalTracer NoopTracer (demoWorld b3Header)) ++ lines)
                 (set_globalTracer NoopTracer (demoWorld b3Header)))
    /\ In msgLoggingReporter lines
    /\ _injectBefore (Some (demoDB (Some gocontext.Background))) _opQuery w1
         = Done (Some d') w2
    /\ storedSpan d' = Some (ISpan (JaegerSpan r))
    /\ is_Some (spans w2 !! r).
Proof.
  apply (NewDefault_then_before_starts_span demoNewTracer
           "istiogormtracing-service" "http://127.0.0.1:14268/api/traces"
           "istiogormtracing-service" "http://127.0.0.1:14268/api/traces"
           (demoDB (Some gocontext.Background))
           (demoStatement (Some gocontext.Background)) gocontext.Background);
    reflexivity.
Defined.

Lemma injectBefore_noop d s c op w :
  gorm.Statement d = Some s -> gorm.Context s = Some c ->
  globalTracer w = NoopTracer ->
  _injectBefore (Some d) op w = Done (Some (withStored (ISpan NoopSpan) d s)) w.
Proof.
  intros Hs Hc Ht. unfold _injectBefore.
  rewrite (bind_Done _ _ _ _ _ (statementUnavailable_bound d s c w Hs Hc)).
  unfold get. unfold bind at 1.
  destruct (zipkin.Extract (H w)) as [spanCtx err].
  unfold bind at 1. rewrite Hs. cbn [deref ret].
  unfold bind at 1. rewrite Hc. cbn [deref ret].
  unfold StartSpanFromContext.
  unfold bind at 1. unfold bind at 1. unfold get. rewrite Ht. cbn [ret].
  unfold gorm.InstanceSet, bind, deref, ret. rewrite Hs. reflexivity.
Qed.

(** X4.  While no tracer has been installed (the global tracer is the
    no-op tracer), a before-hook on an available statement stores the no-op
    span and leaves the process as it is, and the [after] of the operation
    leaves the process as it is too: no span is made, annotated or
    reported, and nothing is logged. *)
Theorem hooks_without_tracer_do_nothing d s c op x w :
  gorm.Statement d = Some s -> gorm.Context s = Some c ->
  globalTracer w = NoopTracer ->
  exists d1,
    _injectBefore (Some d) op w = Done (Some d1) w
    /\ storedSpan d1 = Some (ISpan NoopSpan)
    /\ forall w2, after (Some (execute x d1)) w2 = Done (Some (execute x d1)) w2.
Proof.
  intros Hs Hc Ht. eexists. split; [exact (injectBefore_noop d s c op w Hs Hc Ht)|].
  split; [apply storedSpan_withStored|].
  intros w2.
  destruct (execute_bound x (withStored (ISpan NoopSpan) d s) _ c eq_refl Hc)
    as (s' & Hs' & Hc').
  apply (after_noop_span _ s' c w2 Hs' Hc').
  rewrite storedSpan_execute. apply storedSpan_withStored.
Qed.

Lemma hooks_without_tracer_do_nothing_witness :
  exists d1,
    _injectBefore (Some (demoDB (Some gocontext.Background))) _opUpdate
      (set_globalTracer NoopTracer (demoWorld b3Header))
      = Done (Some d1) (set_globalTracer NoopTracer (demoWorld b3Header))
    /\ storedSpan d1 = Some (ISpan NoopSpan)
    /\ forall w2,
         after (Some (execute failedInsert d1)) w2
           = Done (Some (execute failedInsert d1)) w2.
Proof.
  apply (hooks_without_tracer_do_nothing (demoDB (Some gocontext.Background))
           (demoStatement (Some gocontext.Background)) gocontext.Background);
    reflexivity.
Defined.

(** ** The span handle is kept *)

(** X5.  [after] does not take the span out of the instance store.  A
    second [after] on the same [DB] finds the same span and calls [Finish]
    on it a second time; if the span is sampled, the annotations are
    written on it a second time and the reporter is given it a second
    time. *)
Theorem after_twice_finishes_twice d s c r sp w :
  gorm.Statement d = Some s -> gorm.Context s = Some c ->
  storedSpan d = Some (ISpan (JaegerSpan r)) ->
  spans w !! r = Some sp ->
  exists w1 w2 sp2,
    after (Some d) w = Done (Some d) w1
    /\ after (Some d) w1 = Done (Some d) w2
    /\ finishCalls w2 = finishCalls w ++ [r; r]
    /\ reported w2 = reported w ++ whenSampled sp [r; r]
    /\ spans w2 !! r = Some sp2
    /\ map Fields (logs sp2) =
         map Fields (logs sp) ++ whenSampled sp (annotations d s ++ annotations d s).
Proof.
  intros Hs Hc Hst Hsp.
  destruct (after_jaeger_span d s c r w Hs Hc Hst)
    as (w1 & Ha1 & Hr1 & _ & Hfin1 & Hrep1 & _ & Hsame).
  destruct (after_jaeger_span d s c r w1 Hs Hc Hst)
    as (w2 & Ha2 & Hr2 & _ & Hfin2 & Hrep2 & _).
  destruct Hsame as (_ & _ & _ & _ & Hclock & _).
  unfold handedOver in Hrep1, Hrep2.
  rewrite Hsp in Hr1, Hrep1. cbn in Hr1. rewrite Hr1 in Hr2, Hrep2. cbn in Hr2.
  eexists w1, w2, _. split; [exact Ha1|]. split; [exact Ha2|].
  split; [rewrite Hfin2, Hfin1, <- app_assoc; reflexivity|].
  split.
  { rewrite Hrep2, Hrep1, <- app_assoc. unfold whenSampled. cbn.
    destruct (jaeger.sampled (context sp)); reflexivity. }
  split; [exact Hr2|].
  cbn. unfold whenSampled. cbn.
  destruct (jaeger.sampled (context sp)).
  - rewrite !map_app, !map_map. cbn. rewrite !map_id, <- app_assoc. reflexivity.
  - rewrite !app_nil_r. reflexivity.
Qed.

Lemma after_twice_finishes_twice_witness :
  exists w1 w2 sp2,
    after (Some (execute failedInsert boundDB)) boundWorld
      = Done (Some (execute failedInsert boundDB)) w1
    /\ after (Some (execute failedInsert boundDB)) w1
       = Done (Some (execute failedInsert boundDB)) w2
    /\ finishCalls w2 = [1%positive; 1%positive]
    /\ reported w2 = [1%positive; 1%positive]
    /\ spans w2 !! 1%positive = Some sp2
    /\ length (logs sp2) = 10%nat.
Proof.
  destruct (after_twice_finishes_twice (execute failedInsert boundDB)
              (gorm.mkStatement 4096 (Some gocontext.Background) "users"
                 "INSERT INTO users (name) VALUES (?)" [gorm.VString "xiaoming"]
                 (<[gorm.instanceKey (demoStatement (Some gocontext.Background)) spankey
                      := ISpan (JaegerSpan 1%positive)]> ∅))
              gocontext.Background 1%positive
              (beforeSpan _opQuery gocontext.Background (demoWorld b3Header)) boundWorld)
    as (w1 & w2 & sp2 & H1 & H2 & H3 & H4 & H5 & H6).
  - reflexivity.
  - reflexivity.
  - vm_compute. reflexivity.
  - vm_compute. reflexivity.
  - exists w1, w2, sp2. split; [exact H1|]. split; [exact H2|].
    split; [exact H3|]. split; [exact H4|]. split; [exact H5|].
    rewrite <- (length_map Fields), H6. reflexivity.
Defined.

Lemma withStored_bound v d s c :
  gorm.Context s = Some c ->
  exists s', gorm.Statement (withStored v d s) = Some s'
             /\ gorm.Context s' = Some c
             /\ gorm.instanceKey s' spankey = gorm.instanceKey s spankey.
Proof. intros Hc. eexists. split; [reflexivity|]. split; [exact Hc|reflexivity]. Qed.

(** X6.  A before-hook that runs again on a [DB] that already holds a span
    (a statement used for a second operation, say) starts a second span
    and stores it in place of the first.  The [after] that follows finishes
    the second span only; the first stays in the process as it was started,
    without a duration and without annotations, never finished and never
    given to the reporter. *)
Theorem before_twice_abandons_first_span d s c op1 op2 x w svc ep :
  gorm.Statement d = Some s -> gorm.Context s = Some c ->
  globalTracer w = JaegerTracer svc ep ->
  exists d1 w1 d2 w2 w3 r1 r2 sp1 sp2,
    _injectBefore (Some d) op1 w = Done (Some d1) w1
    /\ storedSpan d1 = Some (ISpan (JaegerSpan r1))
    /\ spans w1 !! r1 = Some sp1
    /\ _injectBefore (Some d1) op2 w1 = Done (Some d2) w2
    /\ storedSpan d2 = Some (ISpan (JaegerSpan r2))
    /\ spans w2 !! r2 = Some sp2
    /\ r1 <> r2
    /\ after (Some (execute x d2)) w2 = Done (Some (execute x d2)) w3
    /\ finishCalls w3 = finishCalls w ++ [r2]
    /\ reported w3 = reported w ++ whenSampled sp2 [r2]
    /\ spans w3 !! r1 = Some sp1
    /\ operationName sp1 = op1 /\ duration sp1 = 0 /\ logs sp1 = [].
Proof.
  intros Hs Hc Ht.
  set (r1 := fresh (dom (spans w))).
  set (d1 := withStored (ISpan (JaegerSpan r1)) d s).
  set (w1 := beforeWorld op1 c w).
  destruct (withStored_bound (ISpan (JaegerSpan r1)) d s c Hc) as (s1 & Hs1 & Hc1 & Hk1).
  assert (Ht1 : globalTracer w1 = JaegerTracer svc ep) by exact Ht.
  set (r2 := fresh (dom (spans w1))).
  set (d2 := withStored (ISpan (JaegerSpan r2)) d1 s1).
  set (w2 := beforeWorld op2 c w1).
  assert (Hr1 : spans w1 !! r1 = Some (beforeSpan op1 c w)).
  { unfold w1, beforeWorld. cbn. apply lookup_insert_eq. }
  assert (Hr2 : spans w2 !! r2 = Some (beforeSpan op2 c w1)).
  { unfold w2, beforeWorld. cbn. apply lookup_insert_eq. }
  assert (Hne : r1 <> r2).
  { intros E. pose proof (fresh_span_unused w1) as Hf. fold r2 in Hf.
    rewrite <- E, Hr1 in Hf. discriminate Hf. }
  destruct (execute_bound x d2 _ c eq_refl Hc1) as (s2 & Hs2 & Hc2).
  destruct (after_jaeger_span (execute x d2) s2 c r2 w2 Hs2 Hc2)
    as (w3 & Ha & _ & Hother & Hfin & Hrep & _).
  { rewrite storedSpan_execute. apply storedSpan_withStored. }
  unfold handedOver in Hrep. rewrite Hr2 in Hrep.
  exists d1, w1, d2, w2, w3, r1, r2, (beforeSpan op1 c w), (beforeSpan op2 c w1).
  split; [exact (injectBefore_bound d s c op1 w svc ep Hs Hc Ht)|].
  split; [apply storedSpan_withStored|].
  split; [exact Hr1|].
  split; [exact (injectBefore_bound d1 s1 c op2 w1 svc ep Hs1 Hc1 Ht1)|].
  split; [apply storedSpan_withStored|].
  split; [exact Hr2|].
  split; [exact Hne|]. split; [exact Ha|].
  split; [exact Hfin|]. split; [exact Hrep|].
  split.
  { rewrite (Hother r1 Hne). unfold w2, beforeWorld. cbn.
    rewrite lookup_insert_ne by (apply not_eq_sym, Hne). exact Hr1. }
  repeat split.
Qed.

Lemma before_twice_abandons_first_span_witness :
  exists d1 w1 d2 w2 w3 r1 r2 sp1 sp2,
    _injectBefore (Some (demoDB (Some gocontext.Background))) _opQuery
      (demoWorld b3Header) = Done (Some d1) w1
    /\ storedSpan d1 = Some (ISpan (JaegerSpan r1))
    /\ spans w1 !! r1 = Some sp1
    /\ _injectBefore (Some d1) _opRow w1 = Done (Some d2) w2
    /\ storedSpan d2 = Some (ISpan (JaegerSpan r2))
    /\ spans w2 !! r2 = Some sp2
    /\ r1 <> r2
    /\ after (Some (execute selectTwoVars d2)) w2
       = Done (Some (execute selectTwoVars d2)) w3
    /\ finishCalls w3 = finishCalls (demoWorld b3Header) ++ [r2]
    /\ reported w3 = reported (demoWorld b3Header) ++ whenSampled sp2 [r2]
    /\ spans w3 !! r1 = Some sp1
    /\ operationName sp1 = _opQuery /\ duration sp1 = 0 /\ logs sp1 = [].
Proof.
  apply (before_twice_abandons_first_span (demoDB (Some gocontext.Background))
           (demoStatement (Some gocontext.Background)) gocontext.Background
           _opQuery _opRow selectTwoVars (demoWorld b3Header)
           "istiogormtracing-service" "http://127.0.0.1:14268/api/traces");
    reflexivity.
Defined.

(** ** What the hooks leave alone *)



Lemma prefix_append p x : String.prefix p (p +:+ x) = true.
Proof.
  induction p as [|a p IH]; [destruct x; reflexivity|].
  change (String a p +:+ x) with (String a (p +:+ x)). cbn.
  destruct (ascii_dec a a); [exact IH|congruence].
Qed.

(** X8.  [after] on a stored span keeps what identifies the span and links
    it: its context (trace id, span id, parent id), its operation name, its
    start time and its references.  It sets the duration to the time since
    the start, and it changes no other span.  Of the rest of the process it
    changes only the record of the calls of [Finish] and, when the span is
    sampled, what the reporter does with it: the reporter is given the span
    and writes one line that starts with [Reporting span] through the log
    package. *)
Theorem after_keeps_span_identity d s c r sp w :
  gorm.Statement d = Some s -> gorm.Context s = Some c ->
  storedSpan d = Some (ISpan (JaegerSpan r)) ->
  spans w !! r = Some sp ->
  exists w' sp' line,
    after (Some d) w = Done (Some d) w'
    /\ spans w' !! r = Some sp'
    /\ context sp' = context sp
    /\ operationName sp' = operationName sp
    /\ startTime sp' = startTime sp
    /\ references sp' = references sp
    /\ duration sp' = clock w - startTime sp
    /\ (forall r', r' <> r -> spans w' !! r' = spans w !! r')
    /\ finishCalls w' = finishCalls w ++ [r]
    /\ reported w' = reported w ++ whenSampled sp [r]
    /\ String.prefix "Reporting span " line = true
    /\ stdLog w' = stdLog w ++ whenSampled sp [line]
    /\ sameProcess w w'.
Proof.
  intros Hs Hc Hst Hsp.
  destruct (after_jaeger_span d s c r w Hs Hc Hst)
    as (w' & Ha & Hr & Hother & Hfin & Hrep & Hlog & Hsame).
  unfold handedOver in Hrep. unfold reportLines in Hlog.
  rewrite Hsp in Hr, Hrep, Hlog. cbn in Hr.
  eexists w', _, (tracer.reportingLine sp). split; [exact Ha|]. split; [exact Hr|].
  cbn. repeat split; try assumption; try apply Hsame.
  apply prefix_append.
Qed.

Lemma after_keeps_span_identity_witness :
  exists w' sp' line,
    after (Some (execute selectTwoVars boundDB)) (set_clock 1005 boundWorld)
      = Done (Some (execute selectTwoVars boundDB)) w'
    /\ spans w' !! 1%positive = Some sp'
    /\ context sp' = context (beforeSpan _opQuery gocontext.Background (demoWorld b3Header))
    /\ operationName sp' = _opQuery
    /\ startTime sp' = 1000
    /\ references sp'
       = references (beforeSpan _opQuery gocontext.Background (demoWorld b3Header))
    /\ duration sp' = 1005 - 1000
    /\ (forall r', r' <> 1%positive ->
          spans w' !! r' = spans (set_clock 1005 boundWorld) !! r')
    /\ finishCalls w' = finishCalls (set_clock 1005 boundWorld) ++ [1%positive]
    /\ reported w' =
         reported (set_clock 1005 boundWorld)
         ++ whenSampled (beforeSpan _opQuery gocontext.Background (demoWorld b3Header))
              [1%positive]
    /\ String.prefix "Reporting span " line = true
    /\ stdLog w' =
         stdLog (set_clock 1005 boundWorld)
         ++ whenSampled (beforeSpan _opQuery gocontext.Background (demoWorld b3Header))
              [line]
    /\ sameProcess (set_clock 1005 boundWorld) w'.
Proof.
  eapply (after_keeps_span_identity (execute selectTwoVars boundDB) _
            gocontext.Background 1%positive
            (beforeSpan _opQuery gocontext.Background (demoWorld b3Header))
            (set_clock 1005 boundWorld)).
  - reflexivity.
  - reflexivity.
  - vm_compute. reflexivity.
  - vm_compute. reflexivity.
Defined.

(** X9.  The log records [after] adds to a stored span that is sampled,
    for any operation: the error of the operation first when it has one,
    then the rendered statement under [sql], the table under [table], and
    the statement text under [query] and once more under [bindings]; one
    record each, behind the records the span had.  A span that is not
    sampled gets none of them. *)
Theorem after_adds_records_in_order d s c r sp w :
  gorm.Statement d = Some s -> gorm.Context s = Some c ->
  storedSpan d = Some (ISpan (JaegerSpan r)) ->
  spans w !! r = Some sp ->
  exists w' sp',
    after (Some d) w = Done (Some d) w'
    /\ spans w' !! r = Some sp'
    /\ map Fields (logs sp') =
         map Fields (logs sp) ++
         whenSampled sp
           (match gorm.Error d with
            | Some e => [[log_Error e]]
            | None => []
            end ++
            [ [log_String "sql" (gorm.Explain d (gorm.SQL s) (gorm.Vars s))];
              [log_String "table" (gorm.Table s)];
              [log_String "query" (gorm.SQL s)];
              [log_String "bindings" (gorm.SQL s)] ]).
Proof.
  intros Hs Hc Hst Hsp.
  destruct (after_annotations d s c r sp w Hs Hc Hst Hsp) as (w' & sp' & Ha & Hr & _ & Hl).
  exists w', sp'. split; [exact Ha|]. split; [exact Hr|].
  rewrite Hl, map_app. f_equal. apply map_Fields_whenSampled.
Qed.

Lemma after_adds_records_in_order_witness :
  exists w' sp',
    after (Some (execute failedInsert boundDB)) (set_clock 1005 boundWorld)
      = Done (Some (execute failedInsert boundDB)) w'
    /\ spans w' !! 1%positive = Some sp'
    /\ map Fields (logs sp') =
         map Fields (logs (beforeSpan _opQuery gocontext.Background (demoWorld b3Header)))
         ++ whenSampled (beforeSpan _opQuery gocontext.Background (demoWorld b3Header))
              ([[log_Error "duplicate key"]] ++
               [ [log_String "sql"
                    (demoExplain "INSERT INTO users (name) VALUES (?)"
                       [gorm.VString "xiaoming"])];
                 [log_String "table" "users"];
                 [log_String "query" "INSERT INTO users (name) VALUES (?)"];
                 [log_String "bindings" "INSERT INTO users (name) VALUES (?)"] ]).
Proof.
  apply (after_adds_records_in_order (execute failedInsert boundDB)
           (gorm.mkStatement 4096 (Some gocontext.Background) "users"
              "INSERT INTO users (name) VALUES (?)" [gorm.VString "xiaoming"]
              (<[gorm.instanceKey (demoStatement (Some gocontext.Background)) spankey
                   := ISpan (JaegerSpan 1%positive)]> ∅))
            gocontext.Background 1%positive
            (beforeSpan _opQuery gocontext.Background (demoWorld b3Header))
            (set_clock 1005 boundWorld)).
  - reflexivity.
  - reflexivity.
  - vm_compute. reflexivity.
  - vm_compute. reflexivity.
Defined.






(** ** The carrier *)

Lemma extractHandler_assignmentOf k v st :
  zipkin.extractHandler k v st =
    match assignmentOf (zipkin.ToLower k) v with
    | inl u => inl (assign u st)
    | inr e => inr e
    end.
Proof.
  unfold zipkin.extractHandler, assignmentOf.
  repeat match goal with
         | |- context [if ?b then _ else _] => destruct b
         | |- context [match ?x with inl _ => _ | inr _ => _ end] => destruct x
         end; reflexivity.
Qed.

Lemma substring_whole s : substring 0 (String.length s) s = s.
Proof. induction s as [|c s IH]; cbn; [reflexivity|]. now rewrite IH. Qed.

Lemma prefix_split p s :
  String.prefix p s = true ->
  s = p +:+ jaeger.substring_from (String.length p) s.
Proof.
  revert s. induction p as [|a p IH]; intros s; cbn.
  - intros _. unfold jaeger.substring_from. cbn.
    now rewrite Nat.sub_0_r, substring_whole.
  - destruct s as [|c s]; [discriminate|]. simpl String.prefix.
    destruct (Ascii.ascii_dec a c) as [->|]; [|intros Hd; discriminate Hd].
    intros Hp. unfold jaeger.substring_from in *.
    change (String c s =
            String c (p +:+ substring (String.length p)
                              (String.length s - String.length p) s)).
    f_equal. apply IH, Hp.
Qed.

Lemma assignments_commute key1 key2 v1 v2 u1 u2 st :
  key1 <> key2 ->
  assignmentOf key1 v1 = inl u1 -> assignmentOf key2 v2 = inl u2 ->
  assign u1 (assign u2 st) = assign u2 (assign u1 st).
Proof.
  intros Hne E1 E2. unfold assignmentOf in E1, E2.
  split_key key1 "x-b3-traceid"; split_key key2 "x-b3-traceid"; try congruence;
  split_key key1 "x-b3-parentspanid"; split_key key2 "x-b3-parentspanid";
    try congruence;
  split_key key1 "x-b3-spanid"; split_key key2 "x-b3-spanid"; try congruence;
  open_assignment E1; open_assignment E2;
  injection E1 as <-; injection E2 as <-; try reflexivity.
  apply (f_equal (zipkin.mkExtractState _ _ _ _)).
  apply insert_insert_ne. intros Hk. apply Hne.
  match goal with
  | Ha : String.prefix _ key1 = true, Hb : String.prefix _ key2 = true |- _ =>
      pose proof (prefix_split _ _ Ha) as A;
      pose proof (prefix_split _ _ Hb) as B;
      change (String.length zipkin.baggagePrefix) with 8%nat in A, B;
      rewrite Hk in A; congruence
  end.
Qed.

Lemma sameResult_refl r : sameResult r r.
Proof. destruct r; cbn; auto. Qed.

Lemma sameResult_sym r1 r2 : sameResult r1 r2 -> sameResult r2 r1.
Proof. destruct r1, r2; cbn; auto. Qed.

Lemma sameResult_trans r1 r2 r3 :
  sameResult r1 r2 -> sameResult r2 r3 -> sameResult r1 r3.
Proof. destruct r1, r2, r3; cbn; auto; try contradiction. congruence. Qed.

(** Sequences of steps on the result of the loop.  A step [f] is well
    behaved when it maps results that differ only in the error to such
    results. *)
Lemma runAll_behaved (fs : list (zipkin.ExtractState + error -> zipkin.ExtractState + error)) :
  Forall (fun f => forall a b, sameResult a b -> sameResult (f a) (f b)) fs ->
  forall a b, sameResult a b -> sameResult (runAll fs a) (runAll fs b).
Proof.
  induction fs as [|f fs IH]; intros F a b Hab.
  - exact Hab.
  - apply Forall_cons in F as [Hf F]. apply (IH F). apply Hf, Hab.
Qed.

Lemma runAll_commute_step (f : zipkin.ExtractState + error -> zipkin.ExtractState + error) gs :
  (forall a b, sameResult a b -> sameResult (f a) (f b)) ->
  Forall (fun g => (forall a b, sameResult a b -> sameResult (g a) (g b))
                   /\ forall a, sameResult (g (f a)) (f (g a))) gs ->
  forall a, sameResult (runAll gs (f a)) (f (runAll gs a)).
Proof.
  intros Hf. induction gs as [|g gs IH]; intros F a.
  - apply sameResult_refl.
  - apply Forall_cons in F as [[Hg Hc] F].
    change (sameResult (runAll gs (g (f a))) (f (runAll gs (g a)))).
    apply (sameResult_trans _ (runAll gs (f (g a)))).
    + apply runAll_behaved; [|apply Hc].
      eapply Forall_impl; [exact F|]. intros ? [? _]. assumption.
    + apply IH, F.
Qed.

Lemma runAll_commute (fs gs : list (zipkin.ExtractState + error -> zipkin.ExtractState + error)) :
  Forall (fun f => forall a b, sameResult a b -> sameResult (f a) (f b)) fs ->
  Forall (fun g => forall a b, sameResult a b -> sameResult (g a) (g b)) gs ->
  Forall (fun f => Forall (fun g => forall a, sameResult (g (f a)) (f (g a))) gs) fs ->
  forall a, sameResult (runAll gs (runAll fs a)) (runAll fs (runAll gs a)).
Proof.
  intros Hfs Hgs. induction fs as [|f fs IH]; intros C a.
  - apply sameResult_refl.
  - apply Forall_cons in Hfs as [Hf Hfs]. apply Forall_cons in C as [Cf C].
    change (sameResult (runAll gs (runAll fs (f a))) (runAll fs (f (runAll gs a)))).
    apply (sameResult_trans _ (runAll fs (runAll gs (f a)))).
    + apply (IH Hfs C).
    + apply runAll_behaved; [exact Hfs|].
      apply runAll_commute_step; [exact Hf|].
      rewrite Forall_forall in *. intros g Hg. split; [apply Hgs, Hg|apply Cf, Hg].
Qed.

Lemma thenHandle_behaved k v a b :
  sameResult a b -> sameResult (thenHandle k v a) (thenHandle k v b).
Proof.
  destruct a, b; cbn; try contradiction; auto.
  intros ->. apply sameResult_refl.
Qed.

Lemma thenHandle_commute k1 v1 k2 v2 a :
  zipkin.ToLower k1 <> zipkin.ToLower k2 ->
  sameResult (thenHandle k2 v2 (thenHandle k1 v1 a))
             (thenHandle k1 v1 (thenHandle k2 v2 a)).
Proof.
  intros Hne. destruct a as [st|e]; [|exact I]. cbn.
  rewrite !extractHandler_assignmentOf.
  destruct (assignmentOf (zipkin.ToLower k1) v1) as [u1|e1] eqn:E1;
    destruct (assignmentOf (zipkin.ToLower k2) v2) as [u2|e2] eqn:E2; cbn;
    rewrite ?extractHandler_assignmentOf, ?E1, ?E2; cbn; auto.
  symmetry. apply (assignments_commute _ _ _ _ _ _ _ Hne E1 E2).
Qed.

Lemma foreachVal_runAll k vals st :
  opentracing.foreachVal zipkin.extractHandler k vals st
    = runAll (map (thenHandle k) vals) (inl st).
Proof.
  revert st. induction vals as [|v vals IH]; intros st; cbn; [reflexivity|].
  destruct (zipkin.extractHandler k v st) as [st'|e]; [apply IH|].
  clear. induction vals as [|v' vals IH]; [reflexivity|exact IH].
Qed.

Lemma thenEntry_runAll e r :
  thenEntry e r = runAll (map (thenHandle (fst e)) (snd e)) r.
Proof.
  destruct r as [st|x]; cbn; [apply foreachVal_runAll|].
  induction (snd e) as [|v vals IH]; [reflexivity|exact IH].
Qed.

Lemma ForeachKey_runAll h st :
  opentracing.ForeachKey zipkin.extractHandler h st
    = runAll (map thenEntry h) (inl st).
Proof.
  revert st. induction h as [|[k vals] h IH]; intros st; cbn; [reflexivity|].
  destruct (opentracing.foreachVal zipkin.extractHandler k vals st) as [st'|e];
    [apply IH|].
  clear. induction h as [|e' h IH]; [reflexivity|exact IH].
Qed.

Lemma thenEntry_behaved e a b :
  sameResult a b -> sameResult (thenEntry e a) (thenEntry e b).
Proof.
  rewrite !thenEntry_runAll. apply runAll_behaved.
  apply Forall_forall. intros f Hf. apply list_elem_of_fmap in Hf as (v & -> & _).
  apply thenHandle_behaved.
Qed.

Lemma thenEntry_commute e1 e2 a :
  zipkin.ToLower (fst e1) <> zipkin.ToLower (fst e2) ->
  sameResult (thenEntry e2 (thenEntry e1 a)) (thenEntry e1 (thenEntry e2 a)).
Proof.
  intros Hne. rewrite !thenEntry_runAll. apply runAll_commute.
  - apply Forall_forall. intros f Hf. apply list_elem_of_fmap in Hf as (v & -> & _).
    apply thenHandle_behaved.
  - apply Forall_forall. intros f Hf. apply list_elem_of_fmap in Hf as (v & -> & _).
    apply thenHandle_behaved.
  - apply Forall_forall. intros f Hf. apply list_elem_of_fmap in Hf as (v1 & -> & _).
    apply Forall_forall. intros g Hg. apply list_elem_of_fmap in Hg as (v2 & -> & _).
    intros r. apply thenHandle_commute, Hne.
Qed.

Lemma carrier_order h1 h2 :
  Permutation h1 h2 -> NoDup (lowerNames h1) ->
  forall r, sameResult (runAll (map thenEntry h1) r) (runAll (map thenEntry h2) r).
Proof.
  induction 1 as [|e l l' Hp IH|e1 e2 l|l l' l'' Hp1 IH1 Hp2 IH2]; intros Hnd r.
  - apply sameResult_refl.
  - apply NoDup_cons in Hnd as [_ Hnd]. apply (IH Hnd).
  - cbn. apply runAll_behaved.
    + apply Forall_forall. intros f Hf.
      apply list_elem_of_fmap in Hf as (e & -> & _). apply thenEntry_behaved.
    + apply thenEntry_commute.
      apply NoDup_cons in Hnd as [Hin _]. intros E. apply Hin.
      cbn. rewrite E. constructor.
  - apply (sameResult_trans _ (runAll (map thenEntry l') r)).
    + apply IH1, Hnd.
    + apply IH2. unfold lowerNames in *.
      assert (Hm : Permutation
                     (map (fun e : string * list string => zipkin.ToLower (fst e)) l)
                     (map (fun e : string * list string => zipkin.ToLower (fst e)) l'))
        by apply Permutation_map, Hp1.
      rewrite <- Hm. exact Hnd.
Qed.

Lemma Extract_of_result h1 h2 :
  sameResult (opentracing.ForeachKey zipkin.extractHandler h1 zipkin.extractInit)
             (opentracing.ForeachKey zipkin.extractHandler h2 zipkin.extractInit) ->
  fst (zipkin.Extract h1) = fst (zipkin.Extract h2).
Proof.
  unfold zipkin.Extract.
  destruct (opentracing.ForeachKey zipkin.extractHandler h1 zipkin.extractInit),
    (opentracing.ForeachKey zipkin.extractHandler h2 zipkin.extractInit);
    cbn; try contradiction; [intros ->|]; reflexivity.
Qed.

Lemma Extract_order h1 h2 :
  Permutation h1 h2 -> NoDup (lowerNames h1) ->
  fst (zipkin.Extract h1) = fst (zipkin.Extract h2).
Proof.
  intros Hp Hnd. apply Extract_of_result. rewrite !ForeachKey_runAll.
  apply carrier_order; assumption.
Qed.

(** The before-hook reads the carrier only for the context extracted from
    it: carriers that give the same context give the same [DB] and, apart
    from [H] itself, the same process. *)
Lemma injectBefore_carrier h1 h2 d op w :
  fst (zipkin.Extract h1) = fst (zipkin.Extract h2) ->
  exists d' w',
    _injectBefore (Some d) op (set_H h1 w) = Done (Some d') (set_H h1 w')
    /\ _injectBefore (Some d) op (set_H h2 w) = Done (Some d') (set_H h2 w').
Proof.
  intros E.
  destruct (gorm.Statement d) as [s|] eqn:Hs.
  2:{ exists d, (set_dbLog (dbLog w ++ [msgNoStatement]) w).
      split; (rewrite injectBefore_unbound; [reflexivity|unfold unbound; now rewrite Hs]). }
  destruct (gorm.Context s) as [c|] eqn:Hc.
  2:{ exists d, (set_dbLog (dbLog w ++ [msgNoStatement]) w).
      split; (rewrite injectBefore_unbound; [reflexivity|unfold unbound; now rewrite Hs]). }
  destruct (globalTracer w) as [|svc ep] eqn:Ht.
  - exists (withStored (ISpan NoopSpan) d s), w.
    split; [exact (injectBefore_noop d s c op (set_H h1 w) Hs Hc Ht)
           |exact (injectBefore_noop d s c op (set_H h2 w) Hs Hc Ht)].
  - exists (withStored (ISpan (JaegerSpan (fresh (dom (spans w))))) d s),
      (beforeWorld op c (set_H h1 w)).
    split.
    + rewrite (injectBefore_bound d s c op (set_H h1 w) svc ep Hs Hc Ht). reflexivity.
    + rewrite (injectBefore_bound d s c op (set_H h2 w) svc ep Hs Hc Ht).
      unfold beforeWorld, beforeSpan, beforeReferences. cbn. rewrite E. reflexivity.
Qed.

(** X11.  The result of a before-hook does not depend on the order in
    which Go ranges over the map [H]: for two orders of the same entries,
    no two names alike up to letter case, it returns the same [DB] and
    leaves the same process. *)
Theorem before_ignores_carrier_order h1 h2 d op w :
  Permutation h1 h2 -> NoDup (lowerNames h1) ->
  exists d' w',
    _injectBefore (Some d) op (set_H h1 w) = Done (Some d') (set_H h1 w')
    /\ _injectBefore (Some d) op (set_H h2 w) = Done (Some d') (set_H h2 w').
Proof.
  intros Hp Hnd. apply injectBefore_carrier, Extract_order; assumption.
Qed.

Lemma before_ignores_carrier_order_witness :
  exists d' w',
    _injectBefore (Some (demoDB (Some gocontext.Background))) _opQuery
      (set_H b3Header (demoWorld [])) = Done (Some d') (set_H b3Header w')
    /\ _injectBefore (Some (demoDB (Some gocontext.Background))) _opQuery
         (set_H (rev b3Header) (demoWorld []))
       = Done (Some d') (set_H (rev b3Header) w').
Proof.
  apply (before_ignores_carrier_order b3Header (rev b3Header)).
  - apply Permutation_rev.
  - apply (bool_decide_unpack (NoDup (lowerNames b3Header))). vm_compute. exact I.
Defined.

Lemma Extract_case h1 h2 :
  sameUpToCase h1 h2 -> zipkin.Extract h1 = zipkin.Extract h2.
Proof.
  intros F. unfold zipkin.Extract.
  assert (E : forall st,
             opentracing.ForeachKey zipkin.extractHandler h1 st
             = opentracing.ForeachKey zipkin.extractHandler h2 st).
  { induction F as [|[k1 vals1] [k2 vals2] l1 l2 [Hk Hv] F IH]; intros st;
      [reflexivity|].
    cbn in Hk, Hv. subst vals2. cbn.
    assert (Ev : forall st',
               opentracing.foreachVal zipkin.extractHandler k1 vals1 st'
               = opentracing.foreachVal zipkin.extractHandler k2 vals1 st').
    { induction vals1 as [|v vals IHv]; intros st'; cbn; [reflexivity|].
      rewrite !extractHandler_assignmentOf, Hk.
      destruct (assignmentOf (zipkin.ToLower k2) v); [apply IHv|reflexivity]. }
    rewrite Ev. destruct (opentracing.foreachVal _ k2 vals1 st); [apply IH|reflexivity]. }
  now rewrite E.
Qed.

(** X12.  Header names are read without regard to letter case: carriers
    with the same entries whose names differ only in case (the canonical
    [X-B3-Traceid] of Go or the [x-b3-traceid] of the mesh) make a
    before-hook return the same [DB] and leave the same process. *)
Theorem before_ignores_header_case h1 h2 d op w :
  sameUpToCase h1 h2 ->
  exists d' w',
    _injectBefore (Some d) op (set_H h1 w) = Done (Some d') (set_H h1 w')
    /\ _injectBefore (Some d) op (set_H h2 w) = Done (Some d') (set_H h2 w').
Proof.
  intros F. apply injectBefore_carrier. now rewrite (Extract_case h1 h2 F).
Qed.

Lemma before_ignores_header_case_witness :
  exists d' w',
    _injectBefore (Some (demoDB (Some gocontext.Background))) _opQuery
      (set_H b3Header (demoWorld [])) = Done (Some d') (set_H b3Header w')
    /\ _injectBefore (Some (demoDB (Some gocontext.Background))) _opQuery
         (set_H [("x-b3-traceid", ["1a2b"]); ("x-b3-spanid", ["00ff"]);
                 ("x-b3-sampled", ["1"])] (demoWorld []))
       = Done (Some d')
           (set_H [("x-b3-traceid", ["1a2b"]); ("x-b3-spanid", ["00ff"]);
                   ("x-b3-sampled", ["1"])] w').
Proof.
  apply (before_ignores_header_case b3Header).
  repeat constructor.
Defined.

Lemma runAll_thenHandle_error k vals e :
  runAll (map (thenHandle k) vals) (inr e) = inr e.
Proof. induction vals as [|v vals IH]; [reflexivity|exact IH]. Qed.

Lemma runAll_thenEntry_error h e : runAll (map thenEntry h) (inr e) = inr e.
Proof. induction h as [|x h IH]; [reflexivity|exact IH]. Qed.

Lemma malformed_value_fails k vals v r :
  v ∈ vals -> malformedId k v ->
  exists e, runAll (map (thenHandle k) vals) r = inr e.
Proof.
  intros Hin [e0 Hm]. revert r. induction vals as [|v' vals IH]; intros r.
  - apply elem_of_nil in Hin. contradiction.
  - change (runAll (map (thenHandle k) (v' :: vals)) r)
      with (runAll (map (thenHandle k) vals) (thenHandle k v' r)).
    apply elem_of_cons in Hin as [<-|Hin]; [|apply (IH Hin)].
    destruct r as [st|e]; cbn [thenHandle].
    + rewrite extractHandler_assignmentOf, Hm. eexists. apply runAll_thenHandle_error.
    + eexists. apply runAll_thenHandle_error.
Qed.

Lemma malformed_entry_fails h k vals v r :
  (k, vals) ∈ h -> v ∈ vals -> malformedId k v ->
  exists e, runAll (map thenEntry h) r = inr e.
Proof.
  intros Hin Hv Hm. revert r. induction h as [|x h IH]; intros r.
  - apply elem_of_nil in Hin. contradiction.
  - change (runAll (map thenEntry (x :: h)) r)
      with (runAll (map thenEntry h) (thenEntry x r)).
    apply elem_of_cons in Hin as [<-|Hin]; [|apply (IH Hin)].
    rewrite thenEntry_runAll. cbn [fst snd].
    destruct (malformed_value_fails k vals v r Hv Hm) as [e ->].
    eexists. apply runAll_thenEntry_error.
Qed.

Lemma Extract_malformed h k vals v :
  (k, vals) ∈ h -> v ∈ vals -> malformedId k v ->
  fst (zipkin.Extract h) = jaeger.emptyContext /\ is_Some (snd (zipkin.Extract h)).
Proof.
  intros Hin Hv Hm. unfold zipkin.Extract. rewrite ForeachKey_runAll.
  destruct (malformed_entry_fails h k vals v (inl zipkin.extractInit) Hin Hv Hm)
    as [e ->].
  cbn. eauto.
Qed.

(** X13.  One identifier in the carrier that does not parse (a trace id,
    span id or parent span id that is not hexadecimal, too long or empty,
    under any of the values of its header) makes the whole inbound context
    unusable, whatever the other headers hold: the before-hook then starts
    the root of a fresh trace, when the context of the statement carries no
    span. *)
Theorem before_drops_context_on_malformed_id d s c op w svc ep k vals v :
  gorm.Statement d = Some s -> gorm.Context s = Some c ->
  globalTracer w = JaegerTracer svc ep ->
  gocontext.activeSpan c = None ->
  (k, vals) ∈ H w -> v ∈ vals -> malformedId k v ->
  exists d' w' r sp,
    _injectBefore (Some d) op w = Done (Some d') w'
    /\ storedSpan d' = Some (ISpan (JaegerSpan r))
    /\ spans w' !! r = Some sp
    /\ isFreshRoot w sp.
Proof.
  intros Hs Hc Ht Hn Hin Hv Hm.
  destruct (Extract_malformed (H w) k vals v Hin Hv Hm) as [Ee _].
  eexists _, _, _, _. split; [exact (injectBefore_bound d s c op w svc ep Hs Hc Ht)|].
  split; [apply storedSpan_withStored|].
  split; [apply lookup_insert_eq|].
  unfold isFreshRoot, beforeSpan, beforeReferences. rewrite Hn, Ee. cbn [context].
  destruct (startedContext_root jaeger.emptyContext (Zpos (rng w (drawn w))) eq_refl)
    as (Et & _ & Ep).
  split; assumption.
Qed.

Lemma before_drops_context_on_malformed_id_witness :
  exists d' w' r sp,
    _injectBefore (Some (demoDB (Some gocontext.Background))) _opQuery
      (demoWorld (b3Header ++ [("X-B3-Parentspanid", ["xyz"])])) = Done (Some d') w'
    /\ storedSpan d' = Some (ISpan (JaegerSpan r))
    /\ spans w' !! r = Some sp
    /\ isFreshRoot (demoWorld (b3Header ++ [("X-B3-Parentspanid", ["xyz"])])) sp.
Proof.
  apply (before_drops_context_on_malformed_id (demoDB (Some gocontext.Background))
           (demoStatement (Some gocontext.Background)) gocontext.Background _opQuery
           (demoWorld (b3Header ++ [("X-B3-Parentspanid", ["xyz"])]))
           "istiogormtracing-service" "http://127.0.0.1:14268/api/traces"
           "X-B3-Parentspanid" ["xyz"] "xyz").
  - reflexivity.
  - reflexivity.
  - reflexivity.
  - reflexivity.
  - cbn. do 3 right. left.
  - left.
  - exists "strconv.ParseUint". vm_compute. reflexivity.
Defined.

(** ** The span of the statement's context *)

(** X14.  When the carrier gives nothing to link to (extraction failed, or
    it gave neither a valid context nor baggage) and the context of the
    statement carries a valid span, the before-hook makes the new span a
    child of that span: same trace, and the parent id is the id of that
    span. *)
Theorem before_falls_back_to_context_span d s c op w svc ep parentCtx :
  gorm.Statement d = Some s -> gorm.Context s = Some c ->
  globalTracer w = JaegerTracer svc ep ->
  tracer.isValidReference (fst (zipkin.Extract (H w))) = false ->
  gocontext.activeSpan c = Some parentCtx ->
  jaeger.IsValid parentCtx = true ->
  exists d' w' r sp,
    _injectBefore (Some d) op w = Done (Some d') w'
    /\ storedSpan d' = Some (ISpan (JaegerSpan r))
    /\ spans w' !! r = Some sp
    /\ jaeger.traceID (context sp) = jaeger.traceID parentCtx
    /\ jaeger.parentID (context sp) = jaeger.spanID parentCtx.
Proof.
  intros Hs Hc Ht Hinv Ha Hv.
  eexists _, _, _, _. split; [exact (injectBefore_bound d s c op w svc ep Hs Hc Ht)|].
  split; [apply storedSpan_withStored|].
  split; [apply lookup_insert_eq|].
  unfold beforeSpan, beforeReferences. rewrite Ha. cbn [context].
  unfold startedContext. cbn [tracer.resolveReferences refContext ChildOf].
  rewrite Hinv. cbn [negb].
  unfold tracer.isValidReference. rewrite Hv. cbn. rewrite Hv. cbn.
  match goal with
  | |- context [tracer.sampleOnCreate ?x] =>
      destruct (sampleOnCreate_ids x) as (-> & _ & -> & _)
  end.
  split; reflexivity.
Qed.

Lemma before_falls_back_to_context_span_witness :
  exists d' w' r sp,
    _injectBefore (Some (demoDB (Some tracedContext))) _opRaw (demoWorld [])
      = Done (Some d') w'
    /\ storedSpan d' = Some (ISpan (JaegerSpan r))
    /\ spans w' !! r = Some sp
    /\ jaeger.traceID (context sp) = jaeger.mkTraceID 0 7
    /\ jaeger.parentID (context sp) = 9.
Proof.
  apply (before_falls_back_to_context_span (demoDB (Some tracedContext))
           (demoStatement (Some tracedContext)) tracedContext _opRaw (demoWorld [])
           "istiogormtracing-service" "http://127.0.0.1:14268/api/traces"
           (jaeger.mkSpanContext (jaeger.mkTraceID 0 7) 9 0 true true ∅));
    reflexivity.
Defined.

(** ** The key of the instance store *)

Lemma length_append a b :
  String.length (a +:+ b) = (String.length a + String.length b)%nat.
Proof.
  induction a as [|c a IH]; [reflexivity|].
  change (S (String.length (a +:+ b)) = S (String.length a + String.length b)).
  now rewrite IH.
Qed.

Lemma append_cancel_r a b k : a +:+ k = b +:+ k -> a = b.
Proof.
  revert b. induction a as [|c a IH]; intros [|c' b] E.
  - reflexivity.
  - apply (f_equal String.length) in E. rewrite !length_append in E. cbn in E. lia.
  - apply (f_equal String.length) in E. rewrite !length_append in E. cbn in E. lia.
  - change (String c (a +:+ k) = String c' (b +:+ k)) in E.
    injection E as -> E. f_equal. apply IH, E.
Qed.

Lemma instanceKey_address s1 s2 k :
  gorm.instanceKey s1 k = gorm.instanceKey s2 k -> gorm.ptr s1 = gorm.ptr s2.
Proof.
  unfold gorm.instanceKey. intros E. apply append_cancel_r in E.
  rewrite <- (HexString.to_Z_of_Z (gorm.ptr s1)), E. apply HexString.to_Z_of_Z.
Qed.

(** X15.  The span is stored under a key that holds the address of the
    statement.  Through a copy of the statement at another address (gorm
    copies the settings into the statement of a new session) the span is
    not found, provided nothing had been stored for that address: an
    [after] on the copy has no effect and the span is not finished by
    it. *)
Theorem copy_of_statement_does_not_see_span d s c op x w svc ep p :
  gorm.Statement d = Some s -> gorm.Context s = Some c ->
  globalTracer w = JaegerTracer svc ep ->
  p <> gorm.ptr s ->
  gorm.Settings s !! (HexString.of_Z p +:+ spankey) = None ->
  exists d1 w1 r,
    _injectBefore (Some d) op w = Done (Some d1) w1
    /\ storedSpan d1 = Some (ISpan (JaegerSpan r))
    /\ storedSpan (cloneAt p d1) = None
    /\ forall w2,
         after (Some (execute x (cloneAt p d1))) w2
           = Done (Some (execute x (cloneAt p d1))) w2.
Proof.
  intros Hs Hc Ht Hp Hfree.
  eexists _, _, _. split; [exact (injectBefore_bound d s c op w svc ep Hs Hc Ht)|].
  split; [apply storedSpan_withStored|].
  assert (Hnone : storedSpan (cloneAt p (withStored
                     (ISpan (JaegerSpan (fresh (dom (spans w))))) d s)) = None).
  { unfold storedSpan, cloneAt, withStored. cbn.
    rewrite lookup_insert_ne; [exact Hfree|].
    intros E. apply Hp. symmetry.
    apply (instanceKey_address s
             (gorm.mkStatement p (gorm.Context s) (gorm.Table s) (gorm.SQL s)
                (gorm.Vars s) (gorm.Settings s)) spankey E). }
  split; [exact Hnone|].
  intros w2.
  destruct (execute_bound x
              (cloneAt p (withStored (ISpan (JaegerSpan (fresh (dom (spans w))))) d s))
              _ c eq_refl Hc) as (s' & Hs' & Hc').
  apply (after_no_span _ s' c w2 Hs' Hc').
  unfold noSpanStored. rewrite storedSpan_execute, Hnone. exact I.
Qed.

Lemma copy_of_statement_does_not_see_span_witness :
  exists d1 w1 r,
    _injectBefore (Some (demoDB (Some gocontext.Background))) _opQuery
      (demoWorld b3Header) = Done (Some d1) w1
    /\ storedSpan d1 = Some (ISpan (JaegerSpan r))
    /\ storedSpan (cloneAt 8192 d1) = None
    /\ forall w2,
         after (Some (execute selectTwoVars (cloneAt 8192 d1))) w2
           = Done (Some (execute selectTwoVars (cloneAt 8192 d1))) w2.
Proof.
  apply (copy_of_statement_does_not_see_span (demoDB (Some gocontext.Background))
           (demoStatement (Some gocontext.Background)) gocontext.Background _opQuery
           selectTwoVars (demoWorld b3Header) "istiogormtracing-service"
           "http://127.0.0.1:14268/api/traces" 8192).
  - reflexivity.
  - reflexivity.
  - reflexivity.
  - vm_compute. discriminate.
  - vm_compute. reflexivity.
Defined.

(** ** From registration to a reported span *)

(** X16.  For every kind of operation, the two callbacks [Initialize]
    registers on its processor trace one run of it: called around the
    operation in the order of their places (before [gorm:<kind>], after
    [gorm:<kind>]), they start and finish exactly one span, named after the
    kind, started at the time of the first callback and with the time in
    between as its duration.  The reporter is given that span if it is
    sampled, and it is unless the context of the statement carries a span
    that is finally not sampled. *)
Theorem registered_callbacks_trace_one_operation compile p (k : OpKind)
    d s c x w dt svc ep :
  gorm.Statement d = Some s -> gorm.Context s = Some c ->
  globalTracer w = JaegerTracer svc ep ->
  exists cbBefore cbAfter d1 w1 w2 r sp,
    callbacks.ofProcessor k (snd (Initialize compile p [])) = [cbBefore; cbAfter]
    /\ callbacks.position cbBefore = callbacks.Before ("gorm:" +:+ opName k)
    /\ callbacks.position cbAfter = callbacks.After ("gorm:" +:+ opName k)
    /\ callbacks.handler cbBefore (Some d) w = Done (Some d1) w1
    /\ callbacks.handler cbAfter (Some (execute x d1)) (set_clock (clock w + dt) w1)
       = Done (Some (execute x d1)) w2
    /\ finishCalls w2 = finishCalls w ++ [r]
    /\ reported w2 = reported w ++ whenSampled sp [r]
    /\ ((forall p0, gocontext.activeSpan c = Some p0 ->
                    jaeger.final p0 = true -> jaeger.sampled p0 = true) ->
        reported w2 = reported w ++ [r])
    /\ spans w2 !! r = Some sp
    /\ operationName sp = opName k
    /\ startTime sp = clock w
    /\ duration sp = dt.
Proof.
  intros Hs Hc Ht.
  set (r := fresh (dom (spans w))).
  set (d1 := withStored (ISpan (JaegerSpan r)) d s).
  set (w1 := beforeWorld (opName k) c w).
  destruct (execute_bound x d1 _ c eq_refl Hc) as (s' & Hs' & Hc').
  destruct (after_jaeger_span (execute x d1) s' c r (set_clock (clock w + dt) w1) Hs' Hc')
    as (w2 & Ha & Hr & _ & Hfin & Hrep & _).
  { rewrite storedSpan_execute. apply storedSpan_withStored. }
  assert (Hsp : spans (set_clock (clock w + dt) w1) !! r
                = Some (beforeSpan (opName k) c w)).
  { unfold w1, beforeWorld. cbn. apply lookup_insert_eq. }
  unfold handedOver in Hrep. rewrite Hsp in Hr, Hrep. cbn in Hr.
  exists (callbacks.mkCallback k (callbacks.Before ("gorm:" +:+ opName k))
            ("istio-gorm-tracing-event:before_" +:+ opName k) (beforeHook k)),
    (callbacks.mkCallback k (callbacks.After ("gorm:" +:+ opName k))
       ("istio-gorm-tracing-event:after_" +:+ opName k) after),
    d1, w1, w2, r,
    (finished (clock w + dt)
       (annotated (clock w + dt) (annotations (execute x d1) s')
          (beforeSpan (opName k) c w))).
  split; [rewrite Initialize_unfold; destruct k; reflexivity|].
  split; [reflexivity|]. split; [reflexivity|].
  split.
  { cbn [callbacks.handler]. rewrite beforeHook_injectBefore.
    exact (injectBefore_bound d s c (opName k) w svc ep Hs Hc Ht). }
  split; [exact Ha|]. split; [exact Hfin|]. split; [exact Hrep|].
  split.
  { intros Hp. rewrite Hrep. unfold whenSampled, beforeSpan. cbn [context].
    now rewrite (before_span_sampled (H w) c _ Hp). }
  split; [exact Hr|].
  cbn. repeat split. lia.
Qed.

Lemma registered_callbacks_trace_one_operation_witness :
  exists cbBefore cbAfter d1 w1 w2 r sp,
    callbacks.ofProcessor Row (snd (Initialize (fun _ _ => None)
                                      (mkIstioGormTracing "svc" "endpoint") []))
      = [cbBefore; cbAfter]
    /\ callbacks.position cbBefore = callbacks.Before ("gorm:" +:+ opName Row)
    /\ callbacks.position cbAfter = callbacks.After ("gorm:" +:+ opName Row)
    /\ callbacks.handler cbBefore (Some (demoDB (Some gocontext.Background)))
         (demoWorld b3Header) = Done (Some d1) w1
    /\ callbacks.handler cbAfter (Some (execute selectTwoVars d1))
         (set_clock (clock (demoWorld b3Header) + 5) w1)
       = Done (Some (execute selectTwoVars d1)) w2
    /\ finishCalls w2 = finishCalls (demoWorld b3Header) ++ [r]
    /\ reported w2 = reported (demoWorld b3Header) ++ whenSampled sp [r]
    /\ ((forall p0, gocontext.activeSpan gocontext.Background = Some p0 ->
                    jaeger.final p0 = true -> jaeger.sampled p0 = true) ->
        reported w2 = reported (demoWorld b3Header) ++ [r])
    /\ spans w2 !! r = Some sp
    /\ operationName sp = opName Row
    /\ startTime sp = clock (demoWorld b3Header)
    /\ duration sp = 5.
Proof.
  apply (registered_callbacks_trace_one_operation (fun _ _ => None)
           (mkIstioGormTracing "svc" "endpoint") Row
           (demoDB (Some gocontext.Background))
           (demoStatement (Some gocontext.Background)) gocontext.Background
           selectTwoVars (demoWorld b3Header) 5 "istiogormtracing-service"
           "http://127.0.0.1:14268/api/traces");
    reflexivity.
Defined.
